(** * bambusy.py: a fleet helper for Bambu printers, verified against its specification

    A shallow embedding of [src/bambusy.py].  Python integers are [Z], Python
    strings are [string] (each character one code point below 256), the
    dictionary built by [select_printers] is a [gmap], and the effects of the
    command functions (printing, the calls into the [bpm] library and
    [time.sleep], exceptions) are threaded through a small state-and-exception
    monad whose state is the trace of everything the process did. *)

From Stdlib Require Import ZArith List Ascii String Bool Lia.
From stdpp Require Import base option list gmap strings pretty.

Local Open Scope string_scope.
#[local] Arguments String.append !s1 s2 : simpl nomatch.

(** ** Python values *)

(** A Python [float] is kept as its [repr]: [repr] round-trips, so it names
    the float, and it is the text an f-string prints for it. *)
Inductive pyfloat := PyFloat (repr : string).

Definition float_repr (x : pyfloat) : string :=
  match x with PyFloat r => r end.

(** Exceptions.  [except Exception] catches the first two kinds only;
    [KeyboardInterrupt], [SystemExit] and the like derive from
    [BaseException] directly.  The string is [str(exc)]. *)
Inductive exn :=
| ValueError (msg : string)
| OtherException (cls msg : string)
| BaseExceptionOnly (cls msg : string).

Definition is_Exception (e : exn) : bool :=
  match e with
  | ValueError _ | OtherException _ _ => true
  | BaseExceptionOnly _ _ => false
  end.

Definition exn_str (e : exn) : string :=
  match e with
  | ValueError m | OtherException _ m | BaseExceptionOnly _ m => m
  end.

(** The outcome of evaluating a Python expression or running a statement. *)
Inductive result (A : Type) :=
| Ret (a : A)
| Raise (e : exn).
Arguments Ret {A} a.
Arguments Raise {A} e.

(** ** String builtins used by the script *)

Module Py.

Definition dquote : ascii := "034"%char.
Definition squote : ascii := "039"%char.
Definition backslash : ascii := "092"%char.

Definition code (c : ascii) : N := N_of_ascii c.

(** [str.isspace] on one character, for code points below 256. *)
Definition isspace (c : ascii) : bool :=
  let n := code c in
  ((9 <=? n) && (n <=? 13) || (28 <=? n) && (n <=? 32)
   || (n =? 133) || (n =? 160))%N.

Definition isdigit (c : ascii) : bool :=
  let n := code c in ((48 <=? n) && (n <=? 57))%N.

Definition digit_value (c : ascii) : Z := Z.of_N (code c) - 48.

Fixpoint lstrip (s : string) : string :=
  match s with
  | String c s' => if isspace c then lstrip s' else s
  | EmptyString => EmptyString
  end.

Fixpoint rstrip (s : string) : string :=
  match s with
  | String c s' =>
      match rstrip s' with
      | EmptyString => if isspace c then EmptyString else String c EmptyString
      | r => String c r
      end
  | EmptyString => EmptyString
  end.

(** [s.strip()] *)
Definition strip (s : string) : string := rstrip (lstrip s).

(** [s.split(sep)] for a separator of one character: one piece more than
    there are separators, empty pieces included. *)
Fixpoint split (sep : ascii) (s : string) : list string :=
  match s with
  | EmptyString => [EmptyString]
  | String c s' =>
      if Ascii.eqb c sep then EmptyString :: split sep s'
      else match split sep s' with
           | piece :: rest => String c piece :: rest
           | [] => [String c EmptyString]
           end
  end.

(** Truthiness of a string: the empty string is false. *)
Definition truthy (s : string) : bool :=
  match s with EmptyString => false | _ => true end.

Definition hex_digit (n : N) : ascii :=
  ascii_of_N (if (n <? 10)%N then 48 + n else 87 + n).

Definition hex2 (c : ascii) : string :=
  String (hex_digit (code c / 16)) (String (hex_digit (code c mod 16)) EmptyString).

Fixpoint contains (c : ascii) (s : string) : bool :=
  match s with
  | EmptyString => false
  | String d s' => Ascii.eqb c d || contains c s'
  end.

(** Printable code points below 256, as [repr] sees them. *)
Definition isprintable (c : ascii) : bool :=
  let n := code c in
  ((32 <=? n) && (n <=? 126) || (161 <=? n) && negb (n =? 173))%N.

Fixpoint repr_body (quote : ascii) (s : string) : string :=
  match s with
  | EmptyString => EmptyString
  | String c s' =>
      let rest := repr_body quote s' in
      if Ascii.eqb c quote || Ascii.eqb c backslash
      then String backslash (String c rest)
      else if Ascii.eqb c "009" then String backslash (String "t" rest)
      else if Ascii.eqb c "010" then String backslash (String "n" rest)
      else if Ascii.eqb c "013" then String backslash (String "r" rest)
      else if isprintable c then String c rest
      else String backslash (String "x" (hex2 c ++ rest))
  end.

(** [repr(s)] of a string. *)
Definition repr_str (s : string) : string :=
  let quote := if contains squote s && negb (contains dquote s)
               then dquote else squote in
  String quote (repr_body quote s ++ String quote EmptyString).

(** [repr] of an integer, and of a list of integers ([f"{missing}"]). *)
Definition repr_int (n : Z) : string := pretty n.

Fixpoint join (sep : string) (l : list string) : string :=
  match l with
  | [] => EmptyString
  | [x] => x
  | x :: rest => x ++ sep ++ join sep rest
  end.

Definition repr_int_list (l : list Z) : string :=
  "[" ++ join ", " (map repr_int l) ++ "]".

(** The digits of an integer literal after its sign: decimal digits with
    single underscores allowed between them.  [prev_digit] tells whether
    the previous character was a digit; the result is the digits read. *)
Fixpoint literal_digits (prev_digit : bool) (s : string) : option (list Z) :=
  match s with
  | EmptyString => if prev_digit then Some [] else None
  | String c s' =>
      if isdigit c then cons (digit_value c) <$> literal_digits true s'
      else if Ascii.eqb c "_" && prev_digit then literal_digits false s'
      else None
  end.

Definition digits_value (ds : list Z) : Z :=
  fold_left (fun acc d => 10 * acc + d)%Z ds 0%Z.

(** [sys.int_info.default_max_str_digits] *)
Definition max_str_digits : N := 4300.

(** The message is formatted with [%.200R]: at most 200 characters of the
    repr are shown. *)
Definition invalid_literal (s : string) : exn :=
  ValueError ("invalid literal for int() with base 10: "
              ++ String.substring 0 200 (repr_str s)).

Definition too_many_digits (n : nat) : exn :=
  ValueError ("Exceeds the limit (" ++ pretty max_str_digits
              ++ " digits) for integer string conversion: value has "
              ++ pretty n
              ++ " digits; use sys.set_int_max_str_digits() to increase the limit").

(** [int(s)] for a string [s] that has no whitespace at either end, which
    is how the script calls it ([int(chunk.strip())]).  A literal that is
    both malformed and longer than the digit limit is reported here as
    malformed; interpreters differ on which of the two messages such an
    input gets, the exception is a [ValueError] in both. *)
Definition int_of_stripped (s : string) : result Z :=
  let '(negative, body) :=
    match s with
    | String "-" s' => (true, s')
    | String "+" s' => (false, s')
    | _ => (false, s)
    end in
  match literal_digits false body with
  | None => Raise (invalid_literal s)
  | Some ds =>
      if (max_str_digits <? N.of_nat (length ds))%N
      then Raise (too_many_digits (length ds))
      else Ret (if negative then - digits_value ds else digits_value ds)%Z
  end.

End Py.

(** ** Constants and the roster entry *)

Definition BIT_BED_LEVELING : Z := Z.shiftl 1 1.
Definition BIT_VIBRATION : Z := Z.shiftl 1 2.
Definition BIT_MOTOR_NOISE : Z := Z.shiftl 1 3.

Record PrinterEntry := {
  id : Z;
  name : string;
  host : string;
  serial : string;
  access_code : string;
  port : Z;
}.

(** ** Pure helpers of the script *)

(** [[int(chunk.strip()) for chunk in raw.split(",") if chunk.strip()]]:
    the comprehension evaluates left to right and stops at the first
    exception. *)
Fixpoint ints_of_chunks (chunks : list string) : result (list Z) :=
  match chunks with
  | [] => Ret []
  | chunk :: rest =>
      if Py.truthy (Py.strip chunk) then
        match Py.int_of_stripped (Py.strip chunk) with
        | Raise e => Raise e
        | Ret n =>
            match ints_of_chunks rest with
            | Raise e => Raise e
            | Ret ns => Ret (n :: ns)
            end
        end
      else ints_of_chunks rest
  end.

Definition parse_printer_ids (raw : string) : result (list Z) :=
  ints_of_chunks (Py.split "," raw).

Definition build_calibration_option (bed_leveling vibration motor_noise : bool) : Z :=
  let option := 0%Z in
  let option := if bed_leveling then Z.lor option BIT_BED_LEVELING else option in
  let option := if vibration then Z.lor option BIT_VIBRATION else option in
  let option := if motor_noise then Z.lor option BIT_MOTOR_NOISE else option in
  option.


(** [select_printers]: the dictionary comprehension inserts the entries in
    roster order, so of two entries with one id the later one stays. *)
Definition index_by_id (printers : list PrinterEntry) : gmap Z PrinterEntry :=
  foldl (fun by_id p => <[id p := p]> by_id) ∅ printers.

Definition absent (by_id : gmap Z PrinterEntry) (pid : Z) : bool :=
  match by_id !! pid with Some _ => false | None => true end.

(** [by_id[pid]]: a subscript on a dictionary raises [KeyError] on an
    absent key. *)
Definition subscript (by_id : gmap Z PrinterEntry) (pid : Z) : result PrinterEntry :=
  match by_id !! pid with
  | Some p => Ret p
  | None => Raise (OtherException "KeyError" (Py.repr_int pid))
  end.

Fixpoint subscript_all (by_id : gmap Z PrinterEntry) (pids : list Z)
  : result (list PrinterEntry) :=
  match pids with
  | [] => Ret []
  | pid :: rest =>
      match subscript by_id pid with
      | Raise e => Raise e
      | Ret p =>
          match subscript_all by_id rest with
          | Raise e => Raise e
          | Ret ps => Ret (p :: ps)
          end
      end
  end.

Definition unknown_ids (missing : list Z) : exn :=
  ValueError ("Unknown printer ID(s): " ++ Py.repr_int_list missing).

Definition select_printers (printers : list PrinterEntry) (requested_ids : list Z)
  : result (list PrinterEntry) :=
  let by_id := index_by_id printers in
  let missing := List.filter (absent by_id) requested_ids in
  match missing with
  | _ :: _ => Raise (unknown_ids missing)
  | [] => subscript_all by_id requested_ids
  end.

(** ** Command documents and [json.dumps] *)

#[local] Unset Elimination Schemes.
Inductive json :=
| JStr (s : string)
| JInt (n : Z)
| JObj (fields : list (string * json)).
#[local] Set Elimination Schemes.

Module Json.

Definition hex4 (c : ascii) : string := "00" ++ Py.hex2 c.

(** One character of a string under [ensure_ascii]. *)
Definition escape (c : ascii) : string :=
  if Ascii.eqb c Py.dquote then String Py.backslash (String Py.dquote EmptyString)
  else if Ascii.eqb c Py.backslash then String Py.backslash (String Py.backslash EmptyString)
  else if Ascii.eqb c "010" then String Py.backslash "n"
  else if Ascii.eqb c "013" then String Py.backslash "r"
  else if Ascii.eqb c "009" then String Py.backslash "t"
  else if Ascii.eqb c "008" then String Py.backslash "b"
  else if Ascii.eqb c "012" then String Py.backslash "f"
  else if ((32 <=? Py.code c) && (Py.code c <=? 126))%N then String c EmptyString
  else String Py.backslash (String "u" (hex4 c)).

Fixpoint escape_all (s : string) : string :=
  match s with
  | EmptyString => EmptyString
  | String c s' => escape c ++ escape_all s'
  end.

Definition quoted (s : string) : string :=
  String Py.dquote (escape_all s ++ String Py.dquote EmptyString).

(** [json.dumps] with its default separators; a dictionary keeps the
    order in which its keys were written. *)
Fixpoint dumps (j : json) : string :=
  match j with
  | JStr s => quoted s
  | JInt n => Py.repr_int n
  | JObj fields =>
      "{" ++ Py.join ", "
               (map (fun kv => match kv with
                               | (k, v) => quoted k ++ ": " ++ dumps v
                               end) fields)
          ++ "}"
  end.

End Json.

Definition home_payload : json :=
  JObj [("print", JObj [("command", JStr "home"); ("sequence_id", JStr "1")])].

Definition cal_payload (option : Z) : json :=
  JObj [("print", JObj [("command", JStr "calibration"); ("sequence_id", JStr "2");
                        ("option", JInt option)])].

(** ** The world outside the script *)

(** A [BambuPrinter] object is named by the position of its constructor
    call in the trace. *)
Definition handle := nat.

(** The calls that leave the script.  [NewPrinter] stands for the two
    constructors [BambuConfig(...)] and [BambuPrinter(config=cfg)]. *)
Inductive call :=
| NewPrinter (entry : PrinterEntry)
| StartSession (printer : handle)
| Sleep (seconds : pyfloat)
| Publish (printer : handle) (topic payload : string)
| Quit (printer : handle).

(** What the process did, in order: a line written by [print], or a call
    with the exception it raised, if any. *)
Inductive event :=
| Printed (line : string)
| Called (c : call) (raised : option exn).

(** The world decides, from what has happened so far, whether a call
    returns or raises. *)
Definition oracle := list event -> call -> option exn.

(** [args], as [parse_args] returns it. *)
Record Namespace := {
  arg_config : string;
  arg_connect_wait : pyfloat;
  arg_post_wait : pyfloat;
  arg_dry_run : bool;
  arg_cmd : string;
  arg_printers : string;
  arg_bed_leveling : bool;
  arg_vibration : bool;
  arg_motor_noise : bool;
  arg_home_only : bool;
  arg_calibration_delay : pyfloat;
}.

(** The state of a run: the trace, and the local variable [bp] of the
    command function that is running. *)
Record state := {
  trace : list event;
  var_bp : option handle;
}.

Definition initial : state := {| trace := []; var_bp := None |}.

Definition M (A : Type) : Type := state -> result A * state.

Definition ret {A} (a : A) : M A := fun st => (Ret a, st).

Definition raise {A} (e : exn) : M A := fun st => (Raise e, st).

Definition bind {A B} (m : M A) (k : A -> M B) : M B :=
  fun st =>
    match m st with
    | (Ret a, st') => k a st'
    | (Raise e, st') => (Raise e, st')
    end.

Notation "'do' x <- m ; k" := (bind m (fun x => k))
  (at level 10, x name, m at level 100, k at level 200).
Notation "'run' m ; k" := (bind m (fun _ => k))
  (at level 10, m at level 100, k at level 200).

Definition lift {A} (r : result A) : M A := fun st => (r, st).

(** [try: body except Exception as exc: handler] *)
Definition try_except {A} (body : M A) (handler : exn -> M A) : M A :=
  fun st =>
    match body st with
    | (Raise e, st') => if is_Exception e then handler e st' else (Raise e, st')
    | done => done
    end.

(** [try: body finally: cleanup]: the cleanup runs on both exits, and an
    exception of its own replaces the pending one. *)
Definition try_finally {A} (body : M A) (cleanup : M unit) : M A :=
  fun st =>
    match body st with
    | (r, st') =>
        match cleanup st' with
        | (Ret _, st'') => (r, st'')
        | (Raise e, st'') => (Raise e, st'')
        end
    end.

Fixpoint for_each {A} (body : A -> M unit) (items : list A) : M unit :=
  match items with
  | [] => ret tt
  | x :: rest => run body x; for_each body rest
  end.

Definition log (e : event) : M unit :=
  fun st => (Ret tt, {| trace := trace st ++ [e]; var_bp := var_bp st |}).

Definition print (line : string) : M unit := log (Printed line).

Definition set_bp (v : option handle) : M unit :=
  fun st => (Ret tt, {| trace := trace st; var_bp := v |}).

Definition get_bp : M (option handle) := fun st => (Ret (var_bp st), st).

(** ** The script's effectful functions *)

Section Script.

(** The printers and the network. *)
Variable world : oracle.

(** [load_config] reads and decodes the roster file; the file system is
    not modelled, so what it returns or raises for a path is given. *)
Variable load_config : string -> result (list PrinterEntry).

Definition external (c : call) : M unit :=
  fun st =>
    let raised := world (trace st) c in
    let st' := {| trace := trace st ++ [Called c raised]; var_bp := var_bp st |} in
    match raised with
    | None => (Ret tt, st')
    | Some e => (Raise e, st')
    end.

Definition new_printer (entry : PrinterEntry) : M handle :=
  fun st =>
    match external (NewPrinter entry) st with
    | (Ret _, st') => (Ret (length (trace st)), st')
    | (Raise e, st') => (Raise e, st')
    end.

Definition send_payload (printer : handle) (serial : string) (payload : json) : M unit :=
  let topic := "device/" ++ serial ++ "/request" in
  external (Publish printer topic (Json.dumps payload)).

Definition with_session (entry : PrinterEntry) (connect_wait : pyfloat) : M handle :=
  do bp <- new_printer entry;
  run external (StartSession bp);
  run external (Sleep connect_wait);
  ret bp.

Fixpoint list_lines (printers : list PrinterEntry) : M unit :=
  match printers with
  | [] => ret tt
  | p :: rest =>
      run print ("  " ++ Py.repr_int (id p) ++ ": " ++ name p ++ " (" ++ host p
                 ++ ", serial: " ++ serial p ++ ")");
      list_lines rest
  end.

Definition cmd_list (printers : list PrinterEntry) : M Z :=
  match printers with
  | [] => run print "No printers in config."; ret 1%Z
  | _ =>
      run print "Configured printers:";
      run list_lines printers;
      ret 0%Z
  end.

Definition progress_line (entry : PrinterEntry) : string :=
  "[" ++ Py.repr_int (id entry) ++ "] " ++ name entry ++ ": HOME".

Definition ok_line (entry : PrinterEntry) : string :=
  "[" ++ Py.repr_int (id entry) ++ "] OK".

Definition failed_line (entry : PrinterEntry) (exc : exn) : string :=
  "[" ++ Py.repr_int (id entry) ++ "] FAILED: " ++ exn_str exc.

Definition calibration_line (entry : PrinterEntry) (option : Z) : string :=
  "[" ++ Py.repr_int (id entry) ++ "] " ++ name entry
      ++ ": CALIBRATION option=" ++ Py.repr_int option.

Definition wait_line (delay : pyfloat) : string :=
  "wait " ++ float_repr delay ++ "s".

(** The [finally] block of both loops. *)
Definition release : M unit :=
  do bp <- get_bp;
  match bp with
  | Some printer => try_except (external (Quit printer)) (fun _ => ret tt)
  | None => ret tt
  end.

(** The body of the loop of [cmd_home]. *)
Definition home_iteration (args : Namespace) (entry : PrinterEntry) : M unit :=
  run print (progress_line entry);
  if arg_dry_run args then print (Json.dumps home_payload)
  else
    run set_bp None;
    try_finally
      (try_except
         (do bp <- with_session entry (arg_connect_wait args);
          run set_bp (Some bp);
          run send_payload bp (serial entry) home_payload;
          run external (Sleep (arg_post_wait args));
          print (ok_line entry))
         (fun exc => print (failed_line entry exc)))
      release.

Definition cmd_home (args : Namespace) (printers : list PrinterEntry) : M Z :=
  do requested <- lift (parse_printer_ids (arg_printers args));
  do targets <- lift (select_printers printers requested);
  run for_each (home_iteration args) targets;
  ret 0%Z.

(** The body of the loop of [cmd_calibrate]. *)
Definition calibrate_iteration (args : Namespace) (option : Z) (entry : PrinterEntry)
  : M unit :=
  run print (progress_line entry);
  if arg_dry_run args then
    run print (Json.dumps home_payload);
    if negb (arg_home_only args) then
      run print (wait_line (arg_calibration_delay args));
      print (Json.dumps (cal_payload option))
    else ret tt
  else
    run set_bp None;
    try_finally
      (try_except
         (do bp <- with_session entry (arg_connect_wait args);
          run set_bp (Some bp);
          run send_payload bp (serial entry) home_payload;
          run (if negb (arg_home_only args) then
                 run external (Sleep (arg_calibration_delay args));
                 run print (calibration_line entry option);
                 send_payload bp (serial entry) (cal_payload option)
               else ret tt);
          run external (Sleep (arg_post_wait args));
          print (ok_line entry))
         (fun exc => print (failed_line entry exc)))
      release.

Definition cmd_calibrate (args : Namespace) (printers : list PrinterEntry) : M Z :=
  do requested <- lift (parse_printer_ids (arg_printers args));
  do targets <- lift (select_printers printers requested);
  let option := build_calibration_option (arg_bed_leveling args) (arg_vibration args)
                                         (arg_motor_noise args) in
  if negb (arg_home_only args) && (option <=? 0)%Z then
    run print "Nothing to calibrate: choose at least one option or use --home-only.";
    ret 1%Z
  else
    run for_each (calibrate_iteration args option) targets;
    ret 0%Z.

(** [main], after [parse_args]: the result is the exit status handed to
    [sys.exit], a raised exception is one that nothing caught. *)
Definition main (args : Namespace) : M Z :=
  do loaded <- try_except
                 (do printers <- lift (load_config (arg_config args)); ret (inl printers))
                 (fun exc => run print ("Config error: " ++ exn_str exc); ret (inr 1%Z));
  match loaded with
  | inr status => ret status
  | inl printers =>
      try_except
        (if String.eqb (arg_cmd args) "list" then cmd_list printers
         else if String.eqb (arg_cmd args) "home" then cmd_home args printers
         else if String.eqb (arg_cmd args) "calibrate" then cmd_calibrate args printers
         else run print ("Unknown command: " ++ arg_cmd args); ret 1%Z)
        (fun exc => run print ("Error: " ++ exn_str exc); ret 1%Z)
  end.

End Script.

(** ** Vocabulary of the statements *)

(** A well-formed [--printers] argument is a comma-separated list of
    chunks: white space only, or a decimal integer inside white space. *)
Module IdList.

Inductive chunk :=
| Blank (space : string)
| Ident (lead : string) (negative : bool) (digits : list nat) (trail : string).

Definition digit_char (d : nat) : ascii := ascii_of_nat (48 + d).
#[global] Arguments digit_char : simpl never.

Fixpoint digit_string (ds : list nat) : string :=
  match ds with
  | [] => EmptyString
  | d :: rest => String (digit_char d) (digit_string rest)
  end.

Definition literal (negative : bool) (ds : list nat) : string :=
  if negative then String "-" (digit_string ds) else digit_string ds.

Definition render (c : chunk) : string :=
  match c with
  | Blank space => space
  | Ident lead negative ds trail => lead ++ literal negative ds ++ trail
  end.

Fixpoint all_space (s : string) : bool :=
  match s with
  | EmptyString => true
  | String c s' => Py.isspace c && all_space s'
  end.

Definition well_formed (c : chunk) : bool :=
  match c with
  | Blank space => all_space space
  | Ident lead _ ds trail =>
      all_space lead && all_space trail
      && forallb (fun d => d <? 10)%nat ds
      && (0 <? length ds)%nat && (N.of_nat (length ds) <=? Py.max_str_digits)%N
  end.

Definition value (c : chunk) : option Z :=
  match c with
  | Blank _ => None
  | Ident _ negative ds _ =>
      let n := Py.digits_value (map Z.of_nat ds) in
      Some (if negative then - n else n)%Z
  end.

(** The argument as typed on the command line. *)
Definition raw (chunks : list chunk) : string := Py.join "," (map render chunks).

End IdList.

(** Strings without white space, and without a comma. *)
Fixpoint no_space (s : string) : bool :=
  match s with
  | EmptyString => true
  | String c s' => negb (Py.isspace c) && no_space s'
  end.

Fixpoint no_comma (s : string) : bool :=
  match s with
  | EmptyString => true
  | String c s' => negb (Ascii.eqb c ",") && no_comma s'
  end.

(** Double quotes written as single ones, to spell out wire documents. *)
Fixpoint wire (s : string) : string :=
  match s with
  | EmptyString => EmptyString
  | String c s' => String (if Ascii.eqb c Py.squote then Py.dquote else c) (wire s')
  end.

(** The handler of [main]: [print(f"Error: {exc}"); return 1]. *)
Definition report_error (exc : exn) : M Z :=
  run print ("Error: " ++ exn_str exc); ret 1%Z.

(** A world in which whatever a call raises is an error, that is, an
    instance of [Exception]. *)
Definition errors_only (world : oracle) : Prop :=
  forall history c e, world history c = Some e -> is_Exception e = true.

(** The printer object that a target's events published on. *)
Fixpoint session_of (events : list event) : option handle :=
  match events with
  | [] => None
  | Called (Publish printer _ _) _ :: _ => Some printer
  | _ :: rest => session_of rest
  end.

Definition returned (ev : event) : Prop :=
  match ev with
  | Called _ (Some _) => False
  | _ => True
  end.

(** What one target leaves in the trace of a real run when its failure is
    kept to itself: the progress line, the steps up to the end or up to the
    first call that raised, one status line ([OK], or [FAILED] with the
    description of what was raised), then the release of the printer object
    it published on, if any. *)
Definition isolated (entry : PrinterEntry) (segment : list event) : Prop :=
  exists (body : list event) (status : string) (cleanup : list event),
    segment = (Printed (progress_line entry) :: body ++ Printed status :: cleanup)%list
    /\ (status = ok_line entry /\ Forall returned body
        \/ exists (before : list event) c e,
             body = (before ++ [Called c (Some e)])%list
             /\ Forall returned before /\ status = failed_line entry e)
    /\ exists raised,
         cleanup = match session_of body with
                   | Some printer => [Called (Quit printer) raised]
                   | None => []
                   end.

(** The printer objects whose [start_session] returned, and how often
    [quit] was called on one. *)
Fixpoint started (events : list event) : list handle :=
  match events with
  | [] => []
  | Called (StartSession printer) None :: rest => printer :: started rest
  | _ :: rest => started rest
  end.

Fixpoint released (printer : handle) (events : list event) : nat :=
  match events with
  | [] => 0
  | Called (Quit p) _ :: rest =>
      (if Nat.eqb p printer then 1 else 0) + released printer rest
  | _ :: rest => released printer rest
  end.

(** A small fleet and some command lines, for the concrete runs. *)
Module Fleet.

Definition alpha : PrinterEntry :=
  {| id := 1; name := "alpha"; host := "10.0.0.1"; serial := "S1";
     access_code := "11111111"; port := 8883 |}.
Definition beta : PrinterEntry :=
  {| id := 2; name := "beta"; host := "10.0.0.2"; serial := "S2";
     access_code := "22222222"; port := 8883 |}.
Definition gamma : PrinterEntry :=
  {| id := 5; name := "gamma"; host := "10.0.0.5"; serial := "S5";
     access_code := "55555555"; port := 8883 |}.
Definition delta : PrinterEntry :=
  {| id := 3; name := "delta"; host := "10.0.0.3"; serial := "S3";
     access_code := "33333333"; port := 8883 |}.

Definition roster : list PrinterEntry := [alpha; beta; gamma].

Definition config (path : string) : result (list PrinterEntry) := Ret roster.

(** [bambusy.py <cmd> --printers <ids>] with the defaults. *)
Definition command (cmd ids : string) : Namespace :=
  {| arg_config := "printers.json";
     arg_connect_wait := PyFloat "2.0"; arg_post_wait := PyFloat "1.0";
     arg_dry_run := false; arg_cmd := cmd; arg_printers := ids;
     arg_bed_leveling := false; arg_vibration := false; arg_motor_noise := false;
     arg_home_only := false; arg_calibration_delay := PyFloat "3.0" |}.

Definition with_dry_run (args : Namespace) : Namespace :=
  {| arg_config := arg_config args;
     arg_connect_wait := arg_connect_wait args; arg_post_wait := arg_post_wait args;
     arg_dry_run := true; arg_cmd := arg_cmd args; arg_printers := arg_printers args;
     arg_bed_leveling := arg_bed_leveling args; arg_vibration := arg_vibration args;
     arg_motor_noise := arg_motor_noise args;
     arg_home_only := arg_home_only args;
     arg_calibration_delay := arg_calibration_delay args |}.

Definition with_bed_leveling (args : Namespace) : Namespace :=
  {| arg_config := arg_config args;
     arg_connect_wait := arg_connect_wait args; arg_post_wait := arg_post_wait args;
     arg_dry_run := arg_dry_run args; arg_cmd := arg_cmd args;
     arg_printers := arg_printers args;
     arg_bed_leveling := true; arg_vibration := arg_vibration args;
     arg_motor_noise := arg_motor_noise args;
     arg_home_only := arg_home_only args;
     arg_calibration_delay := arg_calibration_delay args |}.

Definition with_connect_wait (seconds : pyfloat) (args : Namespace) : Namespace :=
  {| arg_config := arg_config args;
     arg_connect_wait := seconds; arg_post_wait := arg_post_wait args;
     arg_dry_run := arg_dry_run args; arg_cmd := arg_cmd args;
     arg_printers := arg_printers args;
     arg_bed_leveling := arg_bed_leveling args; arg_vibration := arg_vibration args;
     arg_motor_noise := arg_motor_noise args;
     arg_home_only := arg_home_only args;
     arg_calibration_delay := arg_calibration_delay args |}.

(** Every printer answers and every call returns. *)
Definition all_well : oracle := fun _ _ => None.

Definition timed_out : exn := OtherException "TimeoutError" "timed out".

(** The first printer object cannot start its session. *)
Definition first_unreachable : oracle :=
  fun _ c =>
    match c with
    | StartSession 1 => Some timed_out
    | _ => None
    end.

(** [time.sleep(-1.0)] raises [ValueError], as [time.sleep] does on a
    negative length; every other call returns. *)
Definition negative_sleep : exn := ValueError "sleep length must be non-negative".

Definition sleep_rejects_minus_one : oracle :=
  fun _ c =>
    match c with
    | Sleep (PyFloat seconds) =>
        if String.eqb seconds "-1.0" then Some negative_sleep else None
    | _ => None
    end.

End Fleet.

(** The printer objects [quit] was called on, in order; every printer
    object a call names; and the documents handed to [publish], each with
    its topic. *)
Fixpoint quits (events : list event) : list handle :=
  match events with
  | [] => []
  | Called (Quit printer) _ :: rest => printer :: quits rest
  | _ :: rest => quits rest
  end.

Fixpoint handles_used (events : list event) : list handle :=
  match events with
  | [] => []
  | Called (StartSession printer) _ :: rest
  | Called (Publish printer _ _) _ :: rest
  | Called (Quit printer) _ :: rest => printer :: handles_used rest
  | _ :: rest => handles_used rest
  end.

Fixpoint documents (events : list event) : list (string * string) :=
  match events with
  | [] => []
  | Called (Publish _ topic payload) _ :: rest => (topic, payload) :: documents rest
  | _ :: rest => documents rest
  end.

(** How a run of the script can end: with a status, or killed by something
    that is not an [Exception]. *)
Definition ends_well {A} (r : result A) : Prop :=
  match r with
  | Ret _ => True
  | Raise e => is_Exception e = false
  end.

(** A second roster entry with the id of [Fleet.alpha]. *)
Definition spare : PrinterEntry :=
  {| id := 1; name := "spare"; host := "10.0.0.9"; serial := "S9";
     access_code := "99999999"; port := 8883 |}.

(** The line [cmd_list] prints for an entry. *)
Definition list_line (p : PrinterEntry) : string :=
  "  " ++ Py.repr_int (id p) ++ ": " ++ name p ++ " (" ++ host p
       ++ ", serial: " ++ serial p ++ ")".

(** What holds of the events of one target of a real run, in any world:
    [quit] is called once on the printer object that was published on and
    on nothing else, every call names the printer object constructed right
    after the progress line, and what is published is a prefix of the
    documents allowed, each on the topic of the target, and all of them
    when no call of the segment raised. *)
Definition released_once (segment : list event) : Prop :=
  quits segment = match session_of segment with
                  | Some printer => [printer]
                  | None => []
                  end.

Definition own_printer (before segment : list event) : Prop :=
  Forall (fun printer => printer = length before + 1) (handles_used segment).

Definition publishes (entry : PrinterEntry) (allowed : list json)
    (segment : list event) : Prop :=
  let expected :=
    map (fun doc => ("device/" ++ serial entry ++ "/request", Json.dumps doc)) allowed in
  documents segment `prefix_of` expected
  /\ (Forall returned segment -> documents segment = expected).

Definition disciplined (allowed : list json) (before : list event)
    (entry : PrinterEntry) (segment : list event) : Prop :=
  released_once segment /\ own_printer before segment /\ publishes entry allowed segment.

(** Segments that follow one another in the trace, one per item for as long
    as there are segments, each related to its item and to the trace before
    it. *)
Fixpoint each_in_turn {A} (Q : list event -> A -> list event -> Prop)
    (before : list event) (items : list A) (segments : list (list event))
    {struct segments} : Prop :=
  match segments, items with
  | [], _ => True
  | segment :: segments', x :: items' =>
      Q before x segment /\ each_in_turn Q (before ++ segment) items' segments'
  | _ :: _, [] => False
  end.

(** The documents a calibrate target may publish. *)
Definition calibrate_documents (args : Namespace) (option : Z) : list json :=
  home_payload :: (if arg_home_only args then [] else [cal_payload option]).

(** A world in which every call returns. *)
Definition all_return (world : oracle) : Prop :=
  forall history c, world history c = None.

(** The steps of one target when nothing fails, after the events [before]:
    the printer object is the one constructed right after the progress
    line. *)
Definition home_steps (args : Namespace) (before : list event) (entry : PrinterEntry)
  : list event :=
  let bp := length before + 1 in
  let topic := "device/" ++ serial entry ++ "/request" in
  [Printed (progress_line entry);
   Called (NewPrinter entry) None;
   Called (StartSession bp) None;
   Called (Sleep (arg_connect_wait args)) None;
   Called (Publish bp topic (Json.dumps home_payload)) None;
   Called (Sleep (arg_post_wait args)) None;
   Printed (ok_line entry);
   Called (Quit bp) None].

Definition calibrate_steps (args : Namespace) (option : Z) (before : list event)
    (entry : PrinterEntry) : list event :=
  let bp := length before + 1 in
  let topic := "device/" ++ serial entry ++ "/request" in
  [Printed (progress_line entry);
   Called (NewPrinter entry) None;
   Called (StartSession bp) None;
   Called (Sleep (arg_connect_wait args)) None;
   Called (Publish bp topic (Json.dumps home_payload)) None]
  ++ (if arg_home_only args then []
      else [Called (Sleep (arg_calibration_delay args)) None;
            Printed (calibration_line entry option);
            Called (Publish bp topic (Json.dumps (cal_payload option))) None])
  ++ [Called (Sleep (arg_post_wait args)) None;
      Printed (ok_line entry);
      Called (Quit bp) None].

(** Ctrl-C while a document is being published. *)
Definition keyboard_interrupt : exn := BaseExceptionOnly "KeyboardInterrupt" "".

Definition interrupted_publish : oracle :=
  fun _ c =>
    match c with
    | Publish _ _ _ => Some keyboard_interrupt
    | _ => None
    end.



(** * Properties *)

(** ** The option encoder *)

(** C6: the encoder returns the OR of 2, 4 and 8 for the flags that are set,
    its result is one of the eight even numbers below 16, and two triples
    with the same result are the same triple. *)
Theorem C6_option_encoder (b v m b' v' m' : bool) :
  build_calibration_option b v m
  = Z.lor (Z.lor (if b then 2 else 0) (if v then 4 else 0)) (if m then 8 else 0)
  /\ In (build_calibration_option b v m) [0; 2; 4; 6; 8; 10; 12; 14]%Z
  /\ (build_calibration_option b v m = build_calibration_option b' v' m'
      -> (b, v, m) = (b', v', m')).
Proof.
  split; [|split].
  - destruct b, v, m; reflexivity.
  - destruct b, v, m; vm_compute; tauto.
  - destruct b, v, m, b', v', m'; vm_compute; intros H;
      first [reflexivity | discriminate H].
Qed.

(** ** Parsing the identifier list *)

Section Characters.

Lemma space_not_comma c : Py.isspace c = true -> Ascii.eqb c "," = false.
Proof.
  destruct c as [[] [] [] [] [] [] [] []]; vm_compute; congruence.
Qed.

Lemma digit_char_spec d :
  d < 10 ->
  Py.isdigit (IdList.digit_char d) = true
  /\ Py.digit_value (IdList.digit_char d) = Z.of_nat d
  /\ Py.isspace (IdList.digit_char d) = false
  /\ Ascii.eqb (IdList.digit_char d) "," = false.
Proof.
  intros Hd.
  do 10 (destruct d as [|d]; [vm_compute; auto|]). lia.
Qed.

End Characters.

Section Strings.

Lemma append_empty_r s : s ++ "" = s.
Proof. induction s; simpl; congruence. Qed.

Lemma append_assoc s t u : (s ++ t) ++ u = s ++ t ++ u.
Proof. induction s; simpl; congruence. Qed.

Lemma no_comma_append s t : no_comma (s ++ t) = no_comma s && no_comma t.
Proof. induction s as [|c s IH]; simpl; [done|]. rewrite IH. by destruct (Ascii.eqb c ","). Qed.

Lemma all_space_no_comma s : IdList.all_space s = true -> no_comma s = true.
Proof.
  induction s as [|c s IH]; simpl; [done|].
  intros [Hc Hs]%andb_true_iff. rewrite (space_not_comma c Hc). simpl. auto.
Qed.

Lemma lstrip_all_space lead s :
  IdList.all_space lead = true -> Py.lstrip (lead ++ s) = Py.lstrip s.
Proof.
  induction lead as [|c lead IH]; simpl; [done|].
  intros [Hc Hs]%andb_true_iff. rewrite Hc. auto.
Qed.

Lemma lstrip_blank s : IdList.all_space s = true -> Py.lstrip s = "".
Proof.
  intros H. rewrite <- (append_empty_r s). by rewrite lstrip_all_space.
Qed.

Lemma rstrip_no_space s : no_space s = true -> Py.rstrip s = s.
Proof.
  induction s as [|c s IH]; simpl; [done|].
  intros [Hc Hs]%andb_true_iff. rewrite (IH Hs).
  apply negb_true_iff in Hc. rewrite Hc. by destruct s.
Qed.

Lemma rstrip_blank s : IdList.all_space s = true -> Py.rstrip s = "".
Proof.
  induction s as [|c s IH]; simpl; [done|].
  intros [Hc Hs]%andb_true_iff. by rewrite (IH Hs), Hc.
Qed.

Lemma rstrip_all_space s trail :
  IdList.all_space trail = true -> Py.rstrip (s ++ trail) = Py.rstrip s.
Proof.
  intros Ht. induction s as [|c s IH]; simpl.
  - by apply rstrip_blank.
  - by rewrite IH.
Qed.

(** Stripping removes the padding and nothing else. *)
Lemma strip_padded lead core trail :
  IdList.all_space lead = true -> IdList.all_space trail = true ->
  no_space core = true ->
  Py.strip (lead ++ core ++ trail) = core.
Proof.
  intros Hl Ht Hc. unfold Py.strip. rewrite (lstrip_all_space _ _ Hl).
  destruct core as [|c core].
  - simpl. by rewrite (lstrip_blank _ Ht).
  - simpl in *. apply andb_true_iff in Hc as [Hc Hcore].
    apply negb_true_iff in Hc. rewrite Hc.
    change (String c (core ++ trail)) with (String c core ++ trail).
    rewrite (rstrip_all_space _ _ Ht). apply rstrip_no_space.
    simpl. by rewrite Hc, Hcore.
Qed.

Lemma split_no_comma s : no_comma s = true -> Py.split "," s = [s].
Proof.
  induction s as [|c s IH]; simpl; [done|].
  intros [Hc Hs]%andb_true_iff. apply negb_true_iff in Hc.
  by rewrite Hc, (IH Hs).
Qed.

Lemma split_piece s t :
  no_comma s = true -> Py.split "," (s ++ String "," t) = s :: Py.split "," t.
Proof.
  induction s as [|c s IH]; simpl; [done|].
  intros [Hc Hs]%andb_true_iff. apply negb_true_iff in Hc.
  by rewrite Hc, (IH Hs).
Qed.

(** Splitting at the commas undoes joining with commas. *)
Lemma split_join pieces :
  forallb no_comma pieces = true -> pieces <> [] ->
  Py.split "," (Py.join "," pieces) = pieces.
Proof.
  induction pieces as [|s [|t rest] IH]; intros Hall Hne; [done| |].
  - simpl in *. apply andb_true_iff in Hall as [Hs _]. by apply split_no_comma.
  - change (Py.join "," (s :: t :: rest))
      with (s ++ String "," (Py.join "," (t :: rest))).
    simpl in Hall. apply andb_true_iff in Hall as [Hs Hrest].
    rewrite (split_piece _ _ Hs). f_equal. apply IH; [by simpl | done].
Qed.

End Strings.

Section IdentifierList.

Import IdList.

Lemma digit_string_shape ds :
  forallb (fun d => d <? 10)%nat ds = true ->
  no_space (digit_string ds) = true /\ no_comma (digit_string ds) = true.
Proof.
  induction ds as [|d ds IH]; [done|].
  cbn [forallb digit_string no_space no_comma].
  intros [Hd Hds]%andb_true_iff. apply Nat.ltb_lt in Hd.
  destruct (digit_char_spec d Hd) as (_ & _ & Hsp & Hco).
  rewrite Hsp, Hco. cbn [negb andb]. auto.
Qed.

Lemma literal_shape negative ds :
  forallb (fun d => d <? 10)%nat ds = true ->
  no_space (literal negative ds) = true /\ no_comma (literal negative ds) = true.
Proof.
  intros Hds. destruct (digit_string_shape ds Hds) as [Hsp Hco].
  destruct negative; simpl; auto.
Qed.

Lemma literal_digits_digit_string ds prev :
  forallb (fun d => d <? 10)%nat ds = true ->
  ds <> [] \/ prev = true ->
  Py.literal_digits prev (digit_string ds) = Some (map Z.of_nat ds).
Proof.
  revert prev. induction ds as [|d ds IH]; intros prev Hds Hne.
  - destruct Hne as [? | ->]; done.
  - cbn [forallb] in Hds. apply andb_true_iff in Hds as [Hd Hds].
    apply Nat.ltb_lt in Hd.
    destruct (digit_char_spec d Hd) as (Hdig & Hval & _).
    cbn [Py.literal_digits digit_string map].
    rewrite Hdig, Hval, (IH true Hds); auto.
Qed.

(** [int] reads a decimal literal back as its value. *)
Lemma int_of_literal negative ds :
  forallb (fun d => d <? 10)%nat ds = true ->
  (0 <? length ds)%nat = true ->
  (N.of_nat (length ds) <=? Py.max_str_digits)%N = true ->
  Py.int_of_stripped (literal negative ds)
  = Ret (let n := Py.digits_value (map Z.of_nat ds) in if negative then - n else n)%Z.
Proof.
  intros Hds Hpos Hmax.
  assert (Hne : ds <> []) by (destruct ds; [discriminate Hpos | done]).
  assert (Hlim : (Py.max_str_digits <? N.of_nat (length (map Z.of_nat ds)))%N = false).
  { rewrite length_map. apply N.ltb_ge. by apply N.leb_le. }
  pose proof (literal_digits_digit_string ds false Hds (or_introl Hne)) as Hlit.
  destruct negative.
  - unfold Py.int_of_stripped, literal. by rewrite Hlit, Hlim.
  - destruct ds as [|d ds]; [done|].
    cbn [forallb] in Hds. apply andb_true_iff in Hds as [Hd _]. apply Nat.ltb_lt in Hd.
    unfold Py.int_of_stripped, literal.
    do 10 (destruct d as [|d];
           [change (digit_string (?k :: ds)) with (String (digit_char k) (digit_string ds));
            change (digit_string (?k :: ds)) with (String (digit_char k) (digit_string ds)) in Hlit;
            match goal with
            | |- context [digit_char ?k] =>
                let c := eval vm_compute in (digit_char k) in
                change (digit_char k) with c in *
            end;
            cbv iota beta; by rewrite Hlit, Hlim|]).
    lia.
Qed.

Lemma well_formed_ident lead negative ds trail :
  well_formed (Ident lead negative ds trail) = true ->
  all_space lead = true /\ all_space trail = true
  /\ forallb (fun d => d <? 10)%nat ds = true
  /\ (0 <? length ds)%nat = true
  /\ (N.of_nat (length ds) <=? Py.max_str_digits)%N = true.
Proof.
  unfold well_formed. rewrite !andb_true_iff. tauto.
Qed.

Lemma strip_render c :
  well_formed c = true ->
  Py.strip (render c)
  = match c with Blank _ => "" | Ident _ negative ds _ => literal negative ds end.
Proof.
  destruct c as [space|lead negative ds trail].
  - cbn [well_formed render]. intros Hs. unfold Py.strip.
    by rewrite (lstrip_blank _ Hs).
  - intros (Hl & Ht & Hds & _)%well_formed_ident. cbn [render].
    apply strip_padded; [done..|]. by apply literal_shape.
Qed.

Lemma render_no_comma c : well_formed c = true -> no_comma (render c) = true.
Proof.
  destruct c as [space|lead negative ds trail].
  - apply all_space_no_comma.
  - intros (Hl & Ht & Hds & _)%well_formed_ident. cbn [render].
    destruct (literal_shape negative ds Hds) as [_ Hlit].
    rewrite !no_comma_append, Hlit.
    by rewrite (all_space_no_comma _ Hl), (all_space_no_comma _ Ht).
Qed.

Lemma literal_truthy negative ds :
  (0 <? length ds)%nat = true -> Py.truthy (literal negative ds) = true.
Proof. destruct negative, ds; done. Qed.

Lemma ints_of_rendered chunks :
  forallb well_formed chunks = true ->
  ints_of_chunks (map render chunks) = Ret (omap value chunks).
Proof.
  induction chunks as [|c chunks IH]; [done|].
  cbn [forallb map ints_of_chunks]. intros [Hc Hrest]%andb_true_iff.
  rewrite (strip_render c Hc), (IH Hrest).
  destruct c as [space|lead negative ds trail]; [done|].
  apply well_formed_ident in Hc as (_ & _ & Hds & Hpos & Hmax).
  by rewrite literal_truthy, int_of_literal.
Qed.

(** C8: a comma-separated list of chunks, each an integer inside white
    space or white space only, parses to the integers of the chunks that
    have one, in the order of the input and with every repetition kept:
    the white space is trimmed and the empty chunks are dropped. *)
Theorem C8_parse_printer_ids (chunks : list chunk) :
  forallb well_formed chunks = true ->
  parse_printer_ids (raw chunks) = Ret (omap value chunks).
Proof.
  intros Hwf. unfold parse_printer_ids, raw.
  destruct chunks as [|c chunks]; [done|].
  rewrite split_join; [by apply ints_of_rendered| |done].
  clear -Hwf. induction (c :: chunks) as [|x l IH]; [done|].
  cbn [forallb map] in *. apply andb_true_iff in Hwf as [Hx Hl].
  by rewrite (render_no_comma x Hx), IH.
Qed.

(** " 12  , ,-07,12," parses to [12; -7; 12]. *)
Lemma C8_parse_printer_ids_witness :
  parse_printer_ids " 12  , ,-07,12," = Ret [12; -7; 12]%Z.
Proof.
  exact (C8_parse_printer_ids
           [Ident " " false [1; 2] "  "; Blank " "; Ident "" true [0; 7] "";
            Ident "" false [1; 2] ""; Blank ""]
           eq_refl).
Defined.

End IdentifierList.

(** ** Target selection *)

Section Selection.

Implicit Types (printers : list PrinterEntry) (by_id : gmap Z PrinterEntry).

Lemma index_absent printers by_id pid :
  foldl (fun by_id p => <[id p := p]> by_id) by_id printers !! pid = None
  <-> by_id !! pid = None /\ ~ In pid (map id printers).
Proof.
  revert by_id. induction printers as [|p printers IH]; intros by_id; simpl.
  - tauto.
  - rewrite IH. destruct (decide (id p = pid)) as [->|Hne].
    + rewrite lookup_insert_eq. split; [intros [? _]; done | tauto].
    + rewrite lookup_insert_ne by done. tauto.
Qed.

Lemma index_present printers by_id pid p :
  foldl (fun by_id p => <[id p := p]> by_id) by_id printers !! pid = Some p ->
  by_id !! pid = Some p \/ In p printers /\ id p = pid.
Proof.
  revert by_id. induction printers as [|q printers IH]; intros by_id; simpl.
  - tauto.
  - intros [H|[H1 H2]]%IH; [|tauto].
    destruct (decide (id q = pid)) as [Heq|Hne].
    + rewrite <- Heq, lookup_insert_eq in H. injection H as ->. tauto.
    + rewrite lookup_insert_ne in H by done. tauto.
Qed.

Lemma absent_spec printers pid :
  absent (index_by_id printers) pid = true <-> ~ In pid (map id printers).
Proof.
  unfold absent, index_by_id.
  pose proof (index_absent printers ∅ pid) as H. rewrite lookup_empty in H.
  destruct (foldl _ _ _ !! pid) as [p|]; split; try done.
  - intros Hn. destruct H as [_ H]. discriminate (H (conj eq_refl Hn)).
  - intros _. by apply H.
Qed.

Lemma filter_nil {A} (f : A -> bool) l :
  List.filter f l = [] <-> forall x, In x l -> f x = false.
Proof.
  induction l as [|a l IH]; simpl; [tauto|].
  destruct (f a) eqn:Ha; split.
  - done.
  - intros H. specialize (H a (or_introl eq_refl)). congruence.
  - intros H x [<-|Hx]; [done|]. by apply IH.
  - intros H. apply IH. auto.
Qed.

(** With every key present the subscripts succeed, position by position. *)
Lemma subscript_all_present by_id pids :
  (forall pid, In pid pids -> absent by_id pid = false) ->
  exists targets,
    subscript_all by_id pids = Ret targets
    /\ forall i, targets !! i = (pids !! i) ≫= (fun pid => by_id !! pid).
Proof.
  induction pids as [|pid pids IH]; intros Hall.
  - exists []. split; [done|]. by intros [|i].
  - destruct IH as (targets & Hrun & Hpos); [intros; apply Hall; by right|].
    specialize (Hall pid (or_introl eq_refl)). unfold absent in Hall.
    simpl. unfold subscript. destruct (by_id !! pid) as [p|] eqn:Hp; [|done].
    rewrite Hrun. exists (p :: targets). split; [done|].
    intros [|i]; simpl; [done | apply Hpos].
Qed.

Lemma select_all_present printers requested :
  (forall pid, In pid requested -> In pid (map id printers)) ->
  exists targets,
    select_printers printers requested = Ret targets
    /\ forall i, targets !! i
                 = (requested !! i) ≫= (fun pid => index_by_id printers !! pid).
Proof.
  intros Hall.
  assert (Hnone : forall pid, In pid requested ->
                              absent (index_by_id printers) pid = false).
  { intros pid Hin. apply not_true_is_false. rewrite absent_spec. auto. }
  unfold select_printers. rewrite (proj2 (filter_nil _ _) Hnone).
  by apply subscript_all_present.
Qed.

Lemma select_some_absent printers requested :
  (exists pid, In pid requested /\ ~ In pid (map id printers)) ->
  exists missing,
    select_printers printers requested = Raise (unknown_ids missing)
    /\ missing <> []
    /\ forall pid, In pid missing <-> In pid requested /\ ~ In pid (map id printers).
Proof.
  intros (bad & Hin & Hbad).
  exists (List.filter (absent (index_by_id printers)) requested).
  assert (Hspec : forall pid,
             In pid (List.filter (absent (index_by_id printers)) requested)
             <-> In pid requested /\ ~ In pid (map id printers)).
  { intros pid. by rewrite filter_In, absent_spec. }
  unfold select_printers.
  destruct (List.filter _ requested) as [|m missing] eqn:Hm.
  - destruct (proj2 (Hspec bad) (conj Hin Hbad)).
  - done.
Qed.

End Selection.

(** ** Running the commands *)

(** Unfolds the monad and the script's functions down to the calls of the
    world. *)
Ltac run_script :=
  cbv beta iota zeta delta
    [home_iteration calibrate_iteration bind print log set_bp get_bp lift
     try_finally try_except with_session new_printer send_payload external
     release ret raise];
  cbn [trace var_bp].

(** Cases on the outcome of the earliest call not yet decided; in a world
    of errors only, what it raised is caught. *)
Ltac next_call world Herr :=
  match goal with
  | |- context [world ?h ?c] =>
      lazymatch h with
      | context [world _ _] => fail
      | _ =>
          let E := fresh "Hcall" in
          destruct (world h c) as [?exc|] eqn:E;
          [rewrite ?(Herr _ _ _ E)|];
          cbn [trace var_bp]
      end
  end.

(** The events of a segment before its status line, the last line printed. *)
Ltac prints_a_line l :=
  lazymatch l with
  | Printed _ :: _ => constr:(true)
  | _ :: ?rest => prints_a_line rest
  | _ => constr:(false)
  end.

Ltac body_of l :=
  lazymatch l with
  | ?x :: ?rest =>
      let more := prints_a_line rest in
      lazymatch more with
      | true => let b := body_of rest in constr:(x :: b)
      | false => constr:(@nil event)
      end
  end.

Ltac all_but_last l :=
  lazymatch l with
  | [_] => constr:(@nil event)
  | ?x :: ?rest => let b := all_but_last rest in constr:(x :: b)
  end.

Ltac all_returned :=
  solve [repeat first [apply List.Forall_nil | apply List.Forall_cons; [exact I|]]].

(** Reads the three parts of [isolated] off a segment that is spelled out. *)
Ltac read_segment :=
  lazymatch goal with
  | |- isolated _ (_ :: ?l) =>
      let body := body_of l in
      exists body; eexists; eexists; split; [reflexivity|]; split;
      [ first
          [ left; split; [reflexivity | all_returned]
          | right; let before := all_but_last body in
            exists before; eexists; eexists;
            split; [reflexivity | split; [all_returned | reflexivity]] ]
      | first [exists None; reflexivity | eexists; reflexivity] ]
  end.

Ltac close_iteration :=
  eexists; eexists; split; [reflexivity|];
  split; [cbn [trace]; rewrite <- ?app_assoc; cbn [app]; reflexivity | read_segment].

Section Runs.

Variable world : oracle.

Lemma for_each_segments {A} (body : A -> M unit) (P : A -> list event -> Prop) items :
  (forall x st, exists segment st',
      body x st = (Ret tt, st')
      /\ trace st' = (trace st ++ segment)%list /\ P x segment) ->
  forall st, exists segments st',
    for_each body items st = (Ret tt, st')
    /\ trace st' = (trace st ++ concat segments)%list
    /\ Forall2 P items segments.
Proof.
  intros Hbody. induction items as [|x items IH]; intros st.
  - exists [], st. simpl. by rewrite app_nil_r.
  - destruct (Hbody x st) as (segment & st1 & Hrun & Htrace & Hseg).
    destruct (IH st1) as (segments & st2 & Hrest & Htrace2 & Hsegs).
    exists (segment :: segments), st2. simpl. unfold bind. rewrite Hrun.
    split; [done|]. split; [|by constructor].
    by rewrite Htrace2, Htrace, app_assoc.
Qed.

Lemma for_each_prints {A} (body : A -> M unit) (lines : A -> list event) items :
  (forall x st,
      body x st
      = (Ret tt, {| trace := trace st ++ lines x; var_bp := var_bp st |})) ->
  forall st,
    for_each body items st
    = (Ret tt, {| trace := trace st ++ concat (map lines items);
                  var_bp := var_bp st |}).
Proof.
  intros Hbody. induction items as [|x items IH]; intros st.
  - simpl. rewrite app_nil_r. by destruct st.
  - simpl. unfold bind. rewrite Hbody, IH. cbn [trace var_bp].
    by rewrite app_assoc.
Qed.

Lemma cmd_home_selected args printers requested targets st :
  parse_printer_ids (arg_printers args) = Ret requested ->
  select_printers printers requested = Ret targets ->
  cmd_home world args printers st
  = match for_each (home_iteration world args) targets st with
    | (Ret _, st') => (Ret 0%Z, st')
    | (Raise e, st') => (Raise e, st')
    end.
Proof.
  intros Hparse Hselect. unfold cmd_home, bind, lift, ret.
  rewrite Hparse, Hselect. by destruct (for_each _ _ _) as [[] ?].
Qed.

Lemma cmd_calibrate_selected args printers requested targets st :
  parse_printer_ids (arg_printers args) = Ret requested ->
  select_printers printers requested = Ret targets ->
  let option := build_calibration_option (arg_bed_leveling args) (arg_vibration args)
                                         (arg_motor_noise args) in
  cmd_calibrate world args printers st
  = if negb (arg_home_only args) && (option <=? 0)%Z
    then (Ret 1%Z,
          {| trace := trace st ++ [Printed "Nothing to calibrate: choose at least one option or use --home-only."];
             var_bp := var_bp st |})
    else match for_each (calibrate_iteration world args option) targets st with
         | (Ret _, st') => (Ret 0%Z, st')
         | (Raise e, st') => (Raise e, st')
         end.
Proof.
  intros Hparse Hselect. unfold cmd_calibrate, bind, lift, ret.
  rewrite Hparse, Hselect. cbv zeta.
  destruct (negb _ && _); [done|].
  by destruct (for_each _ _ _) as [[] ?].
Qed.

Lemma cmd_home_unknown args printers requested missing st :
  parse_printer_ids (arg_printers args) = Ret requested ->
  select_printers printers requested = Raise (unknown_ids missing) ->
  cmd_home world args printers st = (Raise (unknown_ids missing), st).
Proof.
  intros Hparse Hselect. unfold cmd_home, bind, lift. by rewrite Hparse, Hselect.
Qed.

Lemma cmd_calibrate_unknown args printers requested missing st :
  parse_printer_ids (arg_printers args) = Ret requested ->
  select_printers printers requested = Raise (unknown_ids missing) ->
  cmd_calibrate world args printers st = (Raise (unknown_ids missing), st).
Proof.
  intros Hparse Hselect. unfold cmd_calibrate, bind, lift. by rewrite Hparse, Hselect.
Qed.

Lemma option_positive b v m :
  build_calibration_option b v m <> 0%Z ->
  (build_calibration_option b v m <=? 0)%Z = false.
Proof. destruct b, v, m; vm_compute; congruence. Qed.

Section ErrorsOnly.

Hypothesis Herr : errors_only world.

Lemma home_iteration_isolated args entry st :
  arg_dry_run args = false ->
  exists segment st',
    home_iteration world args entry st = (Ret tt, st')
    /\ trace st' = (trace st ++ segment)%list
    /\ isolated entry segment.
Proof.
  intros Hdry. run_script. rewrite Hdry.
  repeat next_call world Herr; close_iteration.
Qed.

Lemma calibrate_iteration_isolated args option entry st :
  arg_dry_run args = false ->
  exists segment st',
    calibrate_iteration world args option entry st = (Ret tt, st')
    /\ trace st' = (trace st ++ segment)%list
    /\ isolated entry segment.
Proof.
  intros Hdry. run_script. rewrite Hdry.
  destruct (arg_home_only args); cbv beta iota zeta delta [negb];
    repeat next_call world Herr; close_iteration.
Qed.

End ErrorsOnly.

End Runs.

(** ** The entry point *)

Section Main.

Variable world : oracle.
Variable load_config : string -> result (list PrinterEntry).

Lemma main_home args printers st :
  load_config (arg_config args) = Ret printers ->
  arg_cmd args = "home" ->
  main world load_config args st
  = try_except (cmd_home world args printers) report_error st.
Proof.
  intros Hload Hcmd. unfold main, bind at 1, try_except at 1, bind at 1, lift, ret.
  by rewrite Hload, Hcmd.
Qed.

Lemma main_calibrate args printers st :
  load_config (arg_config args) = Ret printers ->
  arg_cmd args = "calibrate" ->
  main world load_config args st
  = try_except (cmd_calibrate world args printers) report_error st.
Proof.
  intros Hload Hcmd. unfold main, bind at 1, try_except at 1, bind at 1, lift, ret.
  by rewrite Hload, Hcmd.
Qed.

End Main.

(** ** Selection: order, duplicates, unknown identifiers *)

(** C7: when every requested id is in the roster, selection returns one
    entry per requested id, in the order of the request: the ids of the
    result are the request itself, every entry comes from the roster, and
    two positions that ask for the same id get the same entry. *)
Theorem C7_select_in_request_order (printers : list PrinterEntry) (requested : list Z) :
  (forall pid, In pid requested -> In pid (map id printers)) ->
  exists targets,
    select_printers printers requested = Ret targets
    /\ map id targets = requested
    /\ Forall (fun entry => In entry printers) targets
    /\ forall i j, requested !! i = requested !! j -> targets !! i = targets !! j.
Proof.
  intros Hall.
  destruct (select_all_present printers requested Hall) as (targets & Hsel & Hpos).
  exists targets. split; [done|].
  assert (Hentry : forall i entry, targets !! i = Some entry ->
                     requested !! i = Some (id entry) /\ In entry printers).
  { intros i entry Hi. rewrite Hpos in Hi.
    destruct (requested !! i) as [pid|]; [|done]. simpl in Hi.
    apply index_present in Hi as [Hi|[Hin <-]]; [|done].
    by rewrite lookup_empty in Hi. }
  assert (Hlen : length targets = length requested).
  { destruct (decide (length targets = length requested)) as [|Hne]; [done|].
    exfalso.
    destruct (Nat.lt_ge_cases (length targets) (length requested)) as [Hlt|Hge].
    - destruct (lookup_lt_is_Some_2 requested (length targets) Hlt) as [pid Hpid].
      pose proof (Hpos (length targets)) as Hp.
      rewrite (lookup_ge_None_2 targets (length targets)), Hpid in Hp by lia.
      simpl in Hp. symmetry in Hp.
      assert (Hin : In pid requested).
      { apply list_elem_of_In. by eapply list_elem_of_lookup_2. }
      apply Hall, absent_spec in Hin; [done|].
      unfold absent. by rewrite Hp.
    - assert (Hlt : length requested < length targets) by lia.
      destruct (lookup_lt_is_Some_2 targets (length requested) Hlt) as [entry He].
      apply Hentry in He as [He _].
      by rewrite lookup_ge_None_2 in He by lia. }
  split; [|split].
  - apply list_eq. intros i. rewrite list_lookup_fmap.
    destruct (targets !! i) as [entry|] eqn:Hi; simpl.
    + by destruct (Hentry i entry Hi) as [-> _].
    + symmetry. apply lookup_ge_None. apply lookup_ge_None in Hi. lia.
  - apply List.Forall_forall. intros entry Hin.
    apply list_elem_of_In, list_elem_of_lookup in Hin as [i Hi].
    by destruct (Hentry i entry Hi).
  - intros i j Hij. by rewrite !Hpos, Hij.
Qed.

(** Requested [3; 1; 3] against a roster with the ids 1, 2, 3 returns the
    entries with the ids [3; 1; 3]. *)
Lemma C7_select_in_request_order_witness :
  exists targets,
    select_printers [Fleet.alpha; Fleet.beta; Fleet.delta] [3; 1; 3]%Z = Ret targets
    /\ map id targets = [3; 1; 3]%Z
    /\ Forall (fun entry => In entry [Fleet.alpha; Fleet.beta; Fleet.delta]) targets
    /\ forall i j, [3; 1; 3]%Z !! i = [3; 1; 3]%Z !! j -> targets !! i = targets !! j.
Proof.
  apply (C7_select_in_request_order [Fleet.alpha; Fleet.beta; Fleet.delta] [3; 1; 3]%Z).
  intros pid [<-|[<-|[<-|[]]]]; vm_compute; tauto.
Defined.

(** C4: when some requested id is not in the roster, selection raises one
    error whose message lists the missing ids, which are exactly the
    requested ids that the roster lacks; no list of targets is returned, and
    [cmd_home] and [cmd_calibrate] raise that error without having printed
    or called anything. *)
Theorem C4_select_unknown (printers : list PrinterEntry) (requested : list Z) :
  (exists pid, In pid requested /\ ~ In pid (map id printers)) ->
  exists missing,
    select_printers printers requested
    = Raise (ValueError ("Unknown printer ID(s): " ++ Py.repr_int_list missing))
    /\ missing <> []
    /\ (forall pid, In pid missing <-> In pid requested /\ ~ In pid (map id printers))
    /\ forall world args st,
         parse_printer_ids (arg_printers args) = Ret requested ->
         cmd_home world args printers st
         = (Raise (ValueError ("Unknown printer ID(s): " ++ Py.repr_int_list missing)), st)
         /\ cmd_calibrate world args printers st
            = (Raise (ValueError ("Unknown printer ID(s): " ++ Py.repr_int_list missing)), st).
Proof.
  intros Hbad.
  destruct (select_some_absent printers requested Hbad) as (missing & Hsel & Hne & Hspec).
  exists missing. split; [done|]. split; [done|]. split; [done|].
  intros world args st Hparse. split.
  - by eapply cmd_home_unknown.
  - by eapply cmd_calibrate_unknown.
Qed.

(** Requested [7; 1; 9] against the fleet: the error names 7 and 9. *)
Lemma C4_select_unknown_witness :
  exists missing,
    select_printers Fleet.roster [7; 1; 9]%Z
    = Raise (ValueError ("Unknown printer ID(s): " ++ Py.repr_int_list missing))
    /\ missing <> []
    /\ (forall pid, In pid missing
                    <-> In pid [7; 1; 9]%Z /\ ~ In pid (map id Fleet.roster))
    /\ forall world args st,
         parse_printer_ids (arg_printers args) = Ret [7; 1; 9]%Z ->
         cmd_home world args Fleet.roster st
         = (Raise (ValueError ("Unknown printer ID(s): " ++ Py.repr_int_list missing)), st)
         /\ cmd_calibrate world args Fleet.roster st
            = (Raise (ValueError ("Unknown printer ID(s): " ++ Py.repr_int_list missing)), st).
Proof.
  apply (C4_select_unknown Fleet.roster [7; 1; 9]%Z).
  exists 7%Z. split; [by left|]. vm_compute. intros [H|[H|[H|[]]]]; discriminate H.
Defined.

(** ** The checks before the first target *)

(** C5: a calibrate invocation whose ids resolve, with no sub-test chosen
    and without [--home-only], prints the one line "Nothing to calibrate..."
    and exits with status 1; the trace grows by that line alone, however
    many targets were selected, so no target is contacted. *)
Theorem C5_nothing_to_calibrate
    (world : oracle) (load_config : string -> result (list PrinterEntry))
    (args : Namespace) (printers : list PrinterEntry)
    (requested : list Z) (targets : list PrinterEntry) (st : state) :
  load_config (arg_config args) = Ret printers ->
  arg_cmd args = "calibrate" ->
  parse_printer_ids (arg_printers args) = Ret requested ->
  select_printers printers requested = Ret targets ->
  build_calibration_option (arg_bed_leveling args) (arg_vibration args)
                           (arg_motor_noise args) = 0%Z ->
  arg_home_only args = false ->
  main world load_config args st
  = (Ret 1%Z,
     {| trace := trace st ++ [Printed "Nothing to calibrate: choose at least one option or use --home-only."];
        var_bp := var_bp st |}).
Proof.
  intros Hload Hcmd Hparse Hselect Hoption Honly.
  rewrite (main_calibrate _ _ _ _ _ Hload Hcmd). unfold try_except.
  rewrite (cmd_calibrate_selected _ _ _ _ _ _ Hparse Hselect).
  by rewrite Hoption, Honly.
Qed.

(** [calibrate --printers 1,2,5] with no flag: one line, status 1. *)
Lemma C5_nothing_to_calibrate_witness :
  main Fleet.all_well Fleet.config (Fleet.command "calibrate" "1,2,5") initial
  = (Ret 1%Z,
     {| trace := [Printed "Nothing to calibrate: choose at least one option or use --home-only."];
        var_bp := None |}).
Proof.
  exact (C5_nothing_to_calibrate Fleet.all_well Fleet.config
           (Fleet.command "calibrate" "1,2,5") Fleet.roster [1; 2; 5]%Z
           [Fleet.alpha; Fleet.beta; Fleet.gamma] initial
           eq_refl eq_refl eq_refl eq_refl eq_refl eq_refl).
Defined.

(** C10: in calibrate the selection comes before the empty-mask check: when
    a requested id is not in the roster, and no sub-test is chosen and
    [--home-only] is absent, [main] prints the one line of the generic
    handler, "Error: Unknown printer ID(s): [...]", and exits with status 1;
    the line "Nothing to calibrate..." is not printed. *)
Theorem C10_unknown_before_empty_mask
    (world : oracle) (load_config : string -> result (list PrinterEntry))
    (args : Namespace) (printers : list PrinterEntry)
    (requested : list Z) (st : state) :
  load_config (arg_config args) = Ret printers ->
  arg_cmd args = "calibrate" ->
  parse_printer_ids (arg_printers args) = Ret requested ->
  (exists pid, In pid requested /\ ~ In pid (map id printers)) ->
  build_calibration_option (arg_bed_leveling args) (arg_vibration args)
                           (arg_motor_noise args) = 0%Z ->
  arg_home_only args = false ->
  exists missing line,
    line = "Error: Unknown printer ID(s): " ++ Py.repr_int_list missing
    /\ (forall pid, In pid missing <-> In pid requested /\ ~ In pid (map id printers))
    /\ main world load_config args st
       = (Ret 1%Z, {| trace := trace st ++ [Printed line]; var_bp := var_bp st |})
    /\ line <> "Nothing to calibrate: choose at least one option or use --home-only.".
Proof.
  intros Hload Hcmd Hparse Hbad _ _.
  destruct (select_some_absent printers requested Hbad) as (missing & Hsel & _ & Hspec).
  exists missing, ("Error: Unknown printer ID(s): " ++ Py.repr_int_list missing).
  split; [done|]. split; [done|]. split; [|done].
  rewrite (main_calibrate _ _ _ _ _ Hload Hcmd). unfold try_except.
  by rewrite (cmd_calibrate_unknown _ _ _ _ _ _ Hparse Hsel).
Qed.

(** [calibrate --printers 1,7] with no flag: the unknown id 7 is reported. *)
Lemma C10_unknown_before_empty_mask_witness :
  exists missing line,
    line = "Error: Unknown printer ID(s): " ++ Py.repr_int_list missing
    /\ (forall pid, In pid missing
                    <-> In pid [1; 7]%Z /\ ~ In pid (map id Fleet.roster))
    /\ main Fleet.all_well Fleet.config (Fleet.command "calibrate" "1,7") initial
       = (Ret 1%Z, {| trace := [Printed line]; var_bp := None |})
    /\ line <> "Nothing to calibrate: choose at least one option or use --home-only.".
Proof.
  apply (C10_unknown_before_empty_mask Fleet.all_well Fleet.config
           (Fleet.command "calibrate" "1,7") Fleet.roster [1; 7]%Z initial);
    try reflexivity.
  exists 7%Z. split; [by right; left|]. vm_compute.
  intros [H|[H|[H|[]]]]; discriminate H.
Defined.

(** ** Dry runs *)

Lemma home_document : Json.dumps home_payload
                      = wire "{'print': {'command': 'home', 'sequence_id': '1'}}".
Proof. reflexivity. Qed.

Lemma calibration_document option :
  Json.dumps (cal_payload option)
  = wire "{'print': {'command': 'calibration', 'sequence_id': '2', 'option': "
    ++ Py.repr_int option ++ "}}".
Proof.
  unfold cal_payload.
  cbv beta iota zeta delta
    [Json.dumps Json.quoted Json.escape_all Json.escape Json.hex4 Py.join map wire
     Py.dquote Py.squote Py.backslash Py.code N_of_ascii N_of_digits
     Ascii.eqb Bool.eqb andb N.leb N.compare Pos.compare Pos.compare_cont
     N.add N.mul Pos.add Pos.mul Pos.succ].
  cbn [String.append]. by rewrite !append_assoc.
Qed.

(** C9: a dry-run calibrate that reaches its loop prints, for each target
    in turn, the progress line and the home document and then, unless
    [--home-only] is set, the line "wait <delay>s" and the calibration
    document with the computed option; it returns status 0, and the trace
    grows by these printed lines alone: nothing is called, no printer
    object exists. *)
Theorem C9_calibrate_dry_run
    (world : oracle) (args : Namespace) (printers : list PrinterEntry)
    (requested : list Z) (targets : list PrinterEntry) (st : state) :
  let option := build_calibration_option (arg_bed_leveling args) (arg_vibration args)
                                         (arg_motor_noise args) in
  arg_dry_run args = true ->
  parse_printer_ids (arg_printers args) = Ret requested ->
  select_printers printers requested = Ret targets ->
  arg_home_only args = true \/ option <> 0%Z ->
  cmd_calibrate world args printers st
  = (Ret 0%Z,
     {| trace :=
          trace st
          ++ concat
               (map (fun entry =>
                       Printed (progress_line entry)
                       :: Printed (wire "{'print': {'command': 'home', 'sequence_id': '1'}}")
                       :: (if arg_home_only args then []
                           else [Printed ("wait " ++ float_repr (arg_calibration_delay args)
                                                  ++ "s");
                                 Printed (wire "{'print': {'command': 'calibration', 'sequence_id': '2', 'option': "
                                          ++ Py.repr_int option ++ "}}")]))
                    targets);
        var_bp := var_bp st |}).
Proof.
  intros option Hdry Hparse Hselect Hrun.
  rewrite (cmd_calibrate_selected _ _ _ _ _ _ Hparse Hselect). cbv zeta.
  fold option.
  assert (Hgo : negb (arg_home_only args) && (option <=? 0)%Z = false).
  { destruct Hrun as [->|Hne]; [done|].
    unfold option in *. rewrite (option_positive _ _ _ Hne). apply andb_false_r. }
  rewrite Hgo.
  erewrite for_each_prints; [reflexivity|].
  intros entry st1. run_script. rewrite Hdry.
  rewrite home_document, calibration_document.
  destruct (arg_home_only args); cbn [negb trace var_bp];
    rewrite <- ?app_assoc; reflexivity.
Qed.

(** Dry-run [calibrate --printers 1 --bed-leveling]: the progress line, the
    home document, the delay line, the calibration document with option 2. *)
Lemma C9_calibrate_dry_run_witness :
  cmd_calibrate Fleet.all_well
    (Fleet.with_dry_run (Fleet.with_bed_leveling (Fleet.command "calibrate" "1")))
    Fleet.roster initial
  = (Ret 0%Z,
     {| trace :=
          [Printed "[1] alpha: HOME";
           Printed (wire "{'print': {'command': 'home', 'sequence_id': '1'}}");
           Printed "wait 3.0s";
           Printed (wire "{'print': {'command': 'calibration', 'sequence_id': '2', 'option': 2}}")];
        var_bp := None |}).
Proof.
  exact (C9_calibrate_dry_run Fleet.all_well
           (Fleet.with_dry_run (Fleet.with_bed_leveling (Fleet.command "calibrate" "1")))
           Fleet.roster [1%Z] [Fleet.alpha] initial
           eq_refl eq_refl eq_refl (or_intror (Z.neq_sym 0 2 (Z.lt_neq 0 2 eq_refl)))).
Defined.

(** ** Real runs: failures, release, exit status *)

Lemma first_unreachable_errors_only : errors_only Fleet.first_unreachable.
Proof.
  intros history c e. unfold Fleet.first_unreachable.
  destruct c as [| [|[|n]] | | |]; intros H; inversion H; reflexivity.
Qed.



(** The run of the witness, event by event: target 2 fails and target 5
    completes on a printer object of its own, which is released. *)
Lemma isolation_run :
  cmd_home Fleet.first_unreachable (Fleet.command "home" "2,5") Fleet.roster initial
  = (Ret 0%Z,
     {| trace :=
          [Printed "[2] beta: HOME";
           Called (NewPrinter Fleet.beta) None;
           Called (StartSession 1) (Some Fleet.timed_out);
           Printed "[2] FAILED: timed out";
           Printed "[5] gamma: HOME";
           Called (NewPrinter Fleet.gamma) None;
           Called (StartSession 5) None;
           Called (Sleep (PyFloat "2.0")) None;
           Called (Publish 5 "device/S5/request"
                     (wire "{'print': {'command': 'home', 'sequence_id': '1'}}")) None;
           Called (Sleep (PyFloat "1.0")) None;
           Printed "[5] OK";
           Called (Quit 5) None];
        var_bp := Some 5 |}).
Proof. vm_compute. reflexivity. Qed.

(** C2, at an input on which it fails: [--connect-wait -1 home --printers 1].
    [with_session] starts the session of printer object 1, then
    [time.sleep(-1.0)] raises inside it, so [bp] is never bound: the target
    is reported FAILED and [quit] is never called on the started session. *)
Theorem C2_session_leak :
  main Fleet.sleep_rejects_minus_one Fleet.config
    (Fleet.with_connect_wait (PyFloat "-1.0") (Fleet.command "home" "1")) initial
  = (Ret 0%Z,
     {| trace :=
          [Printed "[1] alpha: HOME";
           Called (NewPrinter Fleet.alpha) None;
           Called (StartSession 1) None;
           Called (Sleep (PyFloat "-1.0")) (Some Fleet.negative_sleep);
           Printed "[1] FAILED: sleep length must be non-negative"];
        var_bp := None |})
  /\ started
       (trace (snd (main Fleet.sleep_rejects_minus_one Fleet.config
                      (Fleet.with_connect_wait (PyFloat "-1.0") (Fleet.command "home" "1"))
                      initial))) = [1]
  /\ released 1
       (trace (snd (main Fleet.sleep_rejects_minus_one Fleet.config
                      (Fleet.with_connect_wait (PyFloat "-1.0") (Fleet.command "home" "1"))
                      initial))) = 0.
Proof. vm_compute. repeat split. Qed.

(** C1, as the specification states it, fails: [home --printers 2] when
    printer 2 cannot start its session prints FAILED for it, and the exit
    status is 0. *)
Lemma C1_counterexample :
  main Fleet.first_unreachable Fleet.config (Fleet.command "home" "2") initial
  = (Ret 0%Z,
     {| trace :=
          [Printed "[2] beta: HOME";
           Called (NewPrinter Fleet.beta) None;
           Called (StartSession 1) (Some Fleet.timed_out);
           Printed "[2] FAILED: timed out"];
        var_bp := None |}).
Proof. vm_compute. reflexivity. Qed.


(** * Further properties of the script *)

(** ** The option mask *)

(** X1: the mask can be read back bit by bit: bit 1 is bed leveling, bit 2
    vibration, bit 3 motor noise, bit 0 is never set; and the test
    [option <= 0] of [cmd_calibrate] holds exactly when no flag is set. *)
Theorem option_bits_round_trip (bed_leveling vibration motor_noise : bool) :
  let option := build_calibration_option bed_leveling vibration motor_noise in
  Z.testbit option 1 = bed_leveling
  /\ Z.testbit option 2 = vibration
  /\ Z.testbit option 3 = motor_noise
  /\ Z.testbit option 0 = false
  /\ (option <=? 0)%Z = negb (bed_leveling || vibration || motor_noise).
Proof. destruct bed_leveling, vibration, motor_noise; vm_compute; auto. Qed.

(** ** Selection, continued *)

Section SelectionEdges.

Implicit Types (printers : list PrinterEntry) (by_id : gmap Z PrinterEntry).

Lemma index_untouched printers by_id pid :
  ~ In pid (map id printers) ->
  foldl (fun by_id p => <[id p := p]> by_id) by_id printers !! pid = by_id !! pid.
Proof.
  revert by_id. induction printers as [|p printers IH]; intros by_id Hnot; [done|].
  simpl in *. rewrite IH by tauto. apply lookup_insert_ne. tauto.
Qed.

Lemma subscript_all_positions by_id pids targets :
  subscript_all by_id pids = Ret targets ->
  forall i, targets !! i = (pids !! i) ≫= (fun pid => by_id !! pid).
Proof.
  revert targets. induction pids as [|pid pids IH]; intros targets; simpl.
  - intros [= <-]. by intros [|i].
  - unfold subscript. destruct (by_id !! pid) as [p|] eqn:Hp; [|done].
    destruct (subscript_all by_id pids) as [ts|]; [|done].
    intros [= <-]. intros [|i]; simpl; [done|]. by apply IH.
Qed.

Lemma select_positions printers requested targets :
  select_printers printers requested = Ret targets ->
  forall i, targets !! i = (requested !! i) ≫= (fun pid => index_by_id printers !! pid).
Proof.
  unfold select_printers. destruct (List.filter _ requested); [|done].
  apply subscript_all_positions.
Qed.

(** X2: of two roster entries with one id the later one is selected: an
    entry that no later entry shares its id with is what every request for
    its id returns, whatever precedes it in the roster. *)
Theorem select_later_entry_wins
    (before : list PrinterEntry) (p : PrinterEntry) (after : list PrinterEntry)
    (requested : list Z) (targets : list PrinterEntry) :
  ~ In (id p) (map id after) ->
  select_printers (before ++ p :: after) requested = Ret targets ->
  forall i, requested !! i = Some (id p) -> targets !! i = Some p.
Proof.
  intros Hlast Hsel i Hi. rewrite (select_positions _ _ _ Hsel i), Hi. simpl.
  unfold index_by_id. rewrite foldl_app. simpl.
  rewrite index_untouched by done. apply lookup_insert_eq.
Qed.

(** Two entries with id 1: a request for 1 gets the second. *)
Lemma select_later_entry_wins_witness :
  select_printers [Fleet.alpha; spare; Fleet.beta] [1%Z] = Ret [spare]
  /\ [spare] !! 0%nat = Some spare.
Proof.
  split; [reflexivity|].
  apply (select_later_entry_wins [Fleet.alpha] spare [Fleet.beta] [1%Z] [spare]);
    [|reflexivity..].
  intros [H|[]]. discriminate H.
Defined.

(** X3: selection has two outcomes only.  With no requested id missing from
    the roster it returns one target per requested id; otherwise it raises
    the [ValueError] whose list is the missing ids in the order of the
    request, each as often as it was requested.  The [KeyError] of the
    subscript never shows. *)
Theorem select_total (printers : list PrinterEntry) (requested : list Z) :
  let missing :=
    List.filter (fun pid => negb (existsb (Z.eqb pid) (map id printers))) requested in
  match missing with
  | [] => exists targets,
            select_printers printers requested = Ret targets
            /\ length targets = length requested
  | _ :: _ => select_printers printers requested
              = Raise (ValueError ("Unknown printer ID(s): " ++ Py.repr_int_list missing))
  end.
Proof.
  intros missing.
  assert (Hsame : missing = List.filter (absent (index_by_id printers)) requested).
  { unfold missing. apply filter_ext. intros pid.
    destruct (absent (index_by_id printers) pid) eqn:Habs.
    - apply absent_spec in Habs. apply negb_true_iff, not_true_is_false.
      rewrite existsb_exists. intros (x & Hx & Heq). apply Z.eqb_eq in Heq. by subst.
    - apply negb_false_iff, existsb_exists. exists pid. split; [|apply Z.eqb_refl].
      destruct (in_dec Z.eq_dec pid (map id printers)) as [|Hn]; [done|].
      apply absent_spec in Hn. congruence. }
  destruct missing as [|m missing'] eqn:Hm.
  - destruct (subscript_all_present (index_by_id printers) requested) as (targets & Hrun & Hpos).
    { by apply filter_nil. }
    exists targets. unfold select_printers. rewrite <- Hsame. split; [done|].
    clear -Hrun. revert targets Hrun.
    induction requested as [|pid requested IH]; intros targets; simpl.
    + by intros [= <-].
    + destruct (subscript _ pid); [|done].
      destruct (subscript_all _ requested) as [ts|]; [|done].
      intros [= <-]. simpl. f_equal. by apply IH.
  - unfold select_printers. by rewrite <- Hsame.
Qed.

End SelectionEdges.

(** ** Parsing, continued *)

Section ParsingEdges.

Import IdList.

Lemma ints_of_first_bad before bad after e :
  forallb well_formed before = true ->
  Py.truthy (Py.strip bad) = true ->
  Py.int_of_stripped (Py.strip bad) = Raise e ->
  ints_of_chunks (map render before ++ bad :: after) = Raise e.
Proof.
  intros Hwf Htruthy Hbad. induction before as [|c before IH].
  - simpl. by rewrite Htruthy, Hbad.
  - cbn [forallb map app ints_of_chunks] in *.
    apply andb_true_iff in Hwf as [Hc Hrest].
    rewrite (strip_render c Hc), (IH Hrest).
    destruct c as [space|lead negative ds trail]; [done|].
    apply well_formed_ident in Hc as (_ & _ & Hds & Hpos & Hmax).
    by rewrite literal_truthy, int_of_literal.
Qed.

(** X4: the first chunk that is not blank and not an integer decides the
    parse: [int] raises on it and that exception is the outcome, whatever
    follows it in the list. *)
Theorem parse_first_bad_chunk
    (before : list chunk) (bad : string) (after : list string) (e : exn) :
  forallb well_formed before = true ->
  no_comma bad = true ->
  forallb no_comma after = true ->
  Py.truthy (Py.strip bad) = true ->
  Py.int_of_stripped (Py.strip bad) = Raise e ->
  parse_printer_ids (Py.join "," (map render before ++ bad :: after)) = Raise e.
Proof.
  intros Hwf Hbad Hafter Htruthy Hint. unfold parse_printer_ids.
  rewrite split_join.
  - by apply ints_of_first_bad.
  - rewrite forallb_app. cbn [forallb]. rewrite Hbad, Hafter, andb_true_r.
    clear -Hwf. induction before as [|c before IH]; [done|].
    cbn [forallb map] in *. apply andb_true_iff in Hwf as [Hc Hrest].
    by rewrite (render_no_comma c Hc), IH.
  - by destruct (map render before).
Qed.

(** "1, x1 ,2,y": the error is about 'x1', the later 'y' is not reached. *)
Lemma parse_first_bad_chunk_witness :
  parse_printer_ids "1, x1 ,2,y"
  = Raise (ValueError "invalid literal for int() with base 10: 'x1'").
Proof.
  exact (parse_first_bad_chunk [Ident "" false [1] ""] " x1 " ["2"; "y"] _
           eq_refl eq_refl eq_refl eq_refl eq_refl).
Defined.

Lemma int_raises_ValueError s e :
  Py.int_of_stripped s = Raise e -> exists msg, e = ValueError msg.
Proof.
  unfold Py.int_of_stripped.
  destruct (match s with String _ _ => _ | _ => _ end) as [negative body].
  destruct (Py.literal_digits false body) as [ds|].
  - destruct (_ <? _)%N; [|done]. intros [= <-]. by eexists.
  - intros [= <-]. by eexists.
Qed.

Lemma ints_raise_ValueError chunks e :
  ints_of_chunks chunks = Raise e -> exists msg, e = ValueError msg.
Proof.
  induction chunks as [|c chunks IH]; [done|]. simpl.
  destruct (Py.truthy _); [|done].
  destruct (Py.int_of_stripped _) as [n|e'] eqn:Hint.
  - destruct (ints_of_chunks chunks); [done|]. intros [= <-]. by apply IH.
  - intros [= <-]. by eapply int_raises_ValueError.
Qed.

Lemma parse_blank spaces :
  forallb all_space spaces = true -> parse_printer_ids (Py.join "," spaces) = Ret [].
Proof.
  intros Hblank. unfold parse_printer_ids.
  destruct spaces as [|s spaces]; [done|].
  rewrite split_join; [| |done].
  - clear -Hblank. induction (s :: spaces) as [|x l IH]; [done|].
    cbn [forallb ints_of_chunks] in *. apply andb_true_iff in Hblank as [Hx Hl].
    unfold Py.strip. rewrite (lstrip_blank _ Hx). simpl. auto.
  - clear -Hblank. induction (s :: spaces) as [|x l IH]; [done|].
    cbn [forallb] in *. apply andb_true_iff in Hblank as [Hx Hl].
    by rewrite (all_space_no_comma _ Hx), IH.
Qed.

(** X5: whatever [parse_printer_ids] raises is a [ValueError]; no other
    exception comes out of it, for any input. *)
Theorem parse_raises_only_ValueError (raw : string) :
  match parse_printer_ids raw with
  | Ret _ => True
  | Raise e => exists msg, e = ValueError msg
  end.
Proof.
  unfold parse_printer_ids.
  destruct (ints_of_chunks _) as [ns|e] eqn:H; [done|].
  by eapply ints_raise_ValueError.
Qed.

End ParsingEdges.

(** ** Real runs in any world *)

(** Cases on the outcome of the earliest call not yet decided, and on
    whether what it raised is an [Exception]. *)
Ltac any_call world :=
  match goal with
  | |- context [world ?h ?c] =>
      lazymatch h with
      | context [world _ _] => fail
      | _ =>
          let E := fresh "Hcall" in
          let C := fresh "Hkind" in
          let e := fresh "exc" in
          destruct (world h c) as [e|] eqn:E;
          [destruct (is_Exception e) eqn:C|];
          cbn [trace var_bp]
      end
  end.

Ltac prefix_of_list :=
  solve [repeat first [apply prefix_nil | apply prefix_cons]].

Ltac find_raise H :=
  lazymatch type of H with
  | List.Forall _ (Called _ (Some _) :: _) => exact (List.Forall_inv H)
  | List.Forall _ (_ :: _) => apply List.Forall_inv_tail in H; find_raise H
  end.

(** Either everything was published, or a call of the segment raised. *)
Ltac complete_or_raised :=
  first [intros _; reflexivity
        | let H := fresh "Hall" in intros H; exfalso; find_raise H].

Ltac same_handle :=
  solve [repeat first [apply List.Forall_nil
                      | apply List.Forall_cons;
                        [rewrite ?length_app; reflexivity|]]].

(** Closes a case of an iteration: the segment is read off the trace, and
    the facts about it follow by evaluation. *)
Ltac close_any_case :=
  eexists; eexists; eexists; split; [reflexivity|];
  split; [cbn [trace]; rewrite <- ?app_assoc; cbn [app]; reflexivity|];
  split; [first [exact I | assumption]|];
  split; [reflexivity|];
  split; [same_handle | split; [prefix_of_list | complete_or_raised]].

Ltac pass_guard Hrun :=
  match goal with
  | |- context [negb (arg_home_only ?args) && (?option <=? 0)%Z] =>
      let Hgo := fresh "Hgo" in
      assert (Hgo : negb (arg_home_only args) && (option <=? 0)%Z = false)
        by (destruct Hrun as [->|Hne];
            [reflexivity | rewrite (option_positive _ _ _ Hne); apply andb_false_r]);
      rewrite Hgo
  end.

Section AnyWorld.

Variable world : oracle.

Lemma home_iteration_any args entry st :
  arg_dry_run args = false ->
  exists segment st' r,
    home_iteration world args entry st = (r, st')
    /\ trace st' = (trace st ++ segment)%list
    /\ ends_well r
    /\ disciplined [home_payload] (trace st) entry segment.
Proof.
  intros Hdry. run_script. rewrite Hdry.
  unfold disciplined, released_once, own_printer, publishes.
  repeat any_call world; close_any_case.
Qed.

Lemma calibrate_iteration_any args option entry st :
  arg_dry_run args = false ->
  exists segment st' r,
    calibrate_iteration world args option entry st = (r, st')
    /\ trace st' = (trace st ++ segment)%list
    /\ ends_well r
    /\ disciplined (calibrate_documents args option) (trace st) entry segment.
Proof.
  intros Hdry. run_script. rewrite Hdry.
  unfold disciplined, released_once, own_printer, publishes, calibrate_documents.
  destruct (arg_home_only args); cbv beta iota zeta delta [negb];
    repeat any_call world; close_any_case.
Qed.

Lemma for_each_any {A} (body : A -> M unit)
    (Q : list event -> A -> list event -> Prop) items :
  (forall x st, exists segment st' r,
      body x st = (r, st')
      /\ trace st' = (trace st ++ segment)%list
      /\ ends_well r /\ Q (trace st) x segment) ->
  forall st, exists segments st' r,
    for_each body items st = (r, st')
    /\ trace st' = (trace st ++ concat segments)%list
    /\ ends_well r
    /\ each_in_turn Q (trace st) items segments
    /\ (forall u, r = Ret u -> length segments = length items).
Proof.
  intros Hbody. induction items as [|x items IH]; intros st.
  - exists [], st, (Ret tt). simpl. by rewrite app_nil_r.
  - destruct (Hbody x st) as (segment & st1 & r1 & Hrun & Htrace & Hr1 & HQ).
    simpl. unfold bind. rewrite Hrun. destruct r1 as [[]|e].
    + destruct (IH st1) as (segments & st2 & r2 & Hrest & Htrace2 & Hr2 & Hsegs & Hlen).
      exists (segment :: segments), st2, r2. rewrite Hrest. split; [done|].
      split; [simpl; by rewrite Htrace2, Htrace, app_assoc|]. split; [done|].
      split; [simpl; by rewrite <- Htrace|].
      intros u Hu. simpl. f_equal. by eapply Hlen.
    + exists [segment], st1, (Raise e). split; [done|].
      split; [simpl; by rewrite app_nil_r|]. split; [done|].
      split; [simpl; split; [exact HQ | exact I]|].
      intros u Hu. discriminate Hu.
Qed.

End AnyWorld.

(** ** Sessions and documents of a real run *)

Section Discipline.

Variable world : oracle.

Lemma each_in_turn_impl {A} (Q Q' : list event -> A -> list event -> Prop)
    before items segments :
  (forall b x s, Q b x s -> Q' b x s) ->
  each_in_turn Q before items segments -> each_in_turn Q' before items segments.
Proof.
  intros Himpl. revert before items.
  induction segments as [|segment segments IH]; intros before [|x items]; simpl; try done.
  intros [HQ Hrest]. split; [by apply Himpl | by apply IH].
Qed.

Lemma cmd_home_any args printers requested targets st :
  arg_dry_run args = false ->
  parse_printer_ids (arg_printers args) = Ret requested ->
  select_printers printers requested = Ret targets ->
  exists segments st' r,
    cmd_home world args printers st = (r, st')
    /\ trace st' = (trace st ++ concat segments)%list
    /\ ends_well r
    /\ each_in_turn (disciplined [home_payload]) (trace st) targets segments
    /\ (forall status, r = Ret status -> length segments = length targets).
Proof.
  intros Hdry Hparse Hselect.
  rewrite (cmd_home_selected _ _ _ _ _ _ Hparse Hselect).
  destruct (for_each_any (home_iteration world args) (disciplined [home_payload]) targets
              (fun entry st1 => home_iteration_any world args entry st1 Hdry) st)
    as (segments & st' & r & -> & Htrace & Hr & Hsegs & Hlen).
  exists segments, st'. destruct r as [[]|e]; eexists; repeat split; try done.
  intros status _. by eapply Hlen.
Qed.

Lemma cmd_calibrate_any args printers requested targets st :
  let option := build_calibration_option (arg_bed_leveling args) (arg_vibration args)
                                         (arg_motor_noise args) in
  arg_dry_run args = false ->
  parse_printer_ids (arg_printers args) = Ret requested ->
  select_printers printers requested = Ret targets ->
  arg_home_only args = true \/ option <> 0%Z ->
  exists segments st' r,
    cmd_calibrate world args printers st = (r, st')
    /\ trace st' = (trace st ++ concat segments)%list
    /\ ends_well r
    /\ each_in_turn (disciplined (calibrate_documents args option)) (trace st)
         targets segments
    /\ (forall status, r = Ret status -> length segments = length targets).
Proof.
  intros option Hdry Hparse Hselect Hrun. subst option.
  rewrite (cmd_calibrate_selected _ _ _ _ _ _ Hparse Hselect). cbv zeta.
  pass_guard Hrun.
  set (option := build_calibration_option _ _ _) in *.
  destruct (for_each_any (calibrate_iteration world args option)
              (disciplined (calibrate_documents args option)) targets
              (fun entry st1 => calibrate_iteration_any world args option entry st1 Hdry) st)
    as (segments & st' & r & -> & Htrace & Hr & Hsegs & Hlen).
  exists segments, st'. destruct r as [[]|e]; eexists; repeat split; try done.
  intros status _. by eapply Hlen.
Qed.

(** X6: in a real home or calibrate run, in any world, also one in which a
    call is cut short by [KeyboardInterrupt], the trace added is one
    segment per target that was started; in each segment [quit] is called
    exactly once on the printer object a document was published on, and not
    at all when none was; and every call of the segment names the printer
    object constructed in that segment, so no target touches the session of
    another. *)
Theorem sessions_released_and_private
    (args : Namespace) (printers : list PrinterEntry)
    (requested : list Z) (targets : list PrinterEntry) (st : state) :
  arg_dry_run args = false ->
  parse_printer_ids (arg_printers args) = Ret requested ->
  select_printers printers requested = Ret targets ->
  (exists segments st' r,
      cmd_home world args printers st = (r, st')
      /\ trace st' = (trace st ++ concat segments)%list
      /\ each_in_turn (fun before _ segment =>
                         released_once segment /\ own_printer before segment)
           (trace st) targets segments)
  /\ (arg_home_only args = true
      \/ build_calibration_option (arg_bed_leveling args) (arg_vibration args)
                                  (arg_motor_noise args) <> 0%Z ->
      exists segments st' r,
        cmd_calibrate world args printers st = (r, st')
        /\ trace st' = (trace st ++ concat segments)%list
        /\ each_in_turn (fun before _ segment =>
                           released_once segment /\ own_printer before segment)
             (trace st) targets segments).
Proof.
  intros Hdry Hparse Hselect. split.
  - destruct (cmd_home_any args printers requested targets st Hdry Hparse Hselect)
      as (segments & st' & r & Hrun & Htrace & _ & Hsegs & _).
    exists segments, st', r. split; [done|]. split; [done|].
    eapply each_in_turn_impl; [|exact Hsegs]. intros b x s (H1 & H2 & _). by split.
  - intros Hgo.
    destruct (cmd_calibrate_any args printers requested targets st Hdry Hparse Hselect Hgo)
      as (segments & st' & r & Hrun & Htrace & _ & Hsegs & _).
    exists segments, st', r. split; [done|]. split; [done|].
    eapply each_in_turn_impl; [|exact Hsegs]. intros b x s (H1 & H2 & _). by split.
Qed.

(** X7: what a real run publishes.  Each target's documents go to the topic
    [device/<serial>/request] of that target and are, in this order, the
    home document and then the calibration document with the computed
    option: all of them when no call of the target raised, a prefix of them
    otherwise; under [--home-only] and in [cmd_home] the calibration
    document is never published.  A run that returns a status has one such
    segment for every target. *)
Theorem published_documents
    (args : Namespace) (printers : list PrinterEntry)
    (requested : list Z) (targets : list PrinterEntry) (st : state) :
  let option := build_calibration_option (arg_bed_leveling args) (arg_vibration args)
                                         (arg_motor_noise args) in
  let home_only entry :=
    [("device/" ++ serial entry ++ "/request", Json.dumps home_payload)] in
  let home_then_calibration entry :=
    ("device/" ++ serial entry ++ "/request", Json.dumps home_payload)
    :: (if arg_home_only args then []
        else [("device/" ++ serial entry ++ "/request",
               Json.dumps (cal_payload option))]) in
  arg_dry_run args = false ->
  parse_printer_ids (arg_printers args) = Ret requested ->
  select_printers printers requested = Ret targets ->
  (exists segments st' r,
      cmd_home world args printers st = (r, st')
      /\ trace st' = (trace st ++ concat segments)%list
      /\ each_in_turn (fun _ entry segment =>
                         documents segment `prefix_of` home_only entry
                         /\ (Forall returned segment ->
                             documents segment = home_only entry))
           (trace st) targets segments
      /\ (forall status, r = Ret status -> length segments = length targets))
  /\ (arg_home_only args = true \/ option <> 0%Z ->
      exists segments st' r,
        cmd_calibrate world args printers st = (r, st')
        /\ trace st' = (trace st ++ concat segments)%list
        /\ each_in_turn (fun _ entry segment =>
                           documents segment `prefix_of` home_then_calibration entry
                           /\ (Forall returned segment ->
                               documents segment = home_then_calibration entry))
             (trace st) targets segments
        /\ (forall status, r = Ret status -> length segments = length targets)).
Proof.
  intros option home_only home_then_calibration Hdry Hparse Hselect. split.
  - destruct (cmd_home_any args printers requested targets st Hdry Hparse Hselect)
      as (segments & st' & r & Hrun & Htrace & _ & Hsegs & Hlen).
    exists segments, st', r. split; [done|]. split; [done|]. split; [|done].
    eapply each_in_turn_impl; [|exact Hsegs]. by intros b x s (_ & _ & H3).
  - intros Hgo.
    destruct (cmd_calibrate_any args printers requested targets st Hdry Hparse Hselect Hgo)
      as (segments & st' & r & Hrun & Htrace & _ & Hsegs & Hlen).
    exists segments, st', r. split; [done|]. split; [done|]. split; [|done].
    eapply each_in_turn_impl; [|exact Hsegs]. intros b x s (_ & _ & H3).
    unfold publishes, calibrate_documents in H3. fold option in H3.
    unfold home_then_calibration. by destruct (arg_home_only args).
Qed.

End Discipline.

(** [home --printers 2,5] interrupted while publishing to printer 2: the
    run stops there, after the session of printer 2 was released. *)
Lemma sessions_released_and_private_witness :
  exists segments st' r,
    cmd_home interrupted_publish (Fleet.command "home" "2,5") Fleet.roster initial
    = (r, st')
    /\ trace st' = concat segments
    /\ each_in_turn (fun before _ segment =>
                       released_once segment /\ own_printer before segment)
         [] [Fleet.beta; Fleet.gamma] segments.
Proof.
  exact (proj1 (sessions_released_and_private interrupted_publish
                  (Fleet.command "home" "2,5") Fleet.roster [2; 5]%Z
                  [Fleet.beta; Fleet.gamma] initial eq_refl eq_refl eq_refl)).
Defined.

(** [home --printers 2,5] when printer 2 cannot start its session: nothing
    is published for target 2, the home document for target 5. *)
Lemma published_documents_witness :
  exists segments st' r,
    cmd_home Fleet.first_unreachable (Fleet.command "home" "2,5") Fleet.roster initial
    = (r, st')
    /\ trace st' = concat segments
    /\ each_in_turn (fun _ entry segment =>
                       documents segment
                       `prefix_of` [("device/" ++ serial entry ++ "/request",
                                     Json.dumps home_payload)]
                       /\ (Forall returned segment ->
                           documents segment
                           = [("device/" ++ serial entry ++ "/request",
                               Json.dumps home_payload)]))
         [] [Fleet.beta; Fleet.gamma] segments
    /\ (forall status, r = Ret status -> length segments = 2).
Proof.
  exact (proj1 (published_documents Fleet.first_unreachable
                  (Fleet.command "home" "2,5") Fleet.roster [2; 5]%Z
                  [Fleet.beta; Fleet.gamma] initial eq_refl eq_refl eq_refl)).
Defined.

(** The interrupted run, event by event. *)
Lemma interrupted_run :
  main interrupted_publish Fleet.config (Fleet.command "home" "2,5") initial
  = (Raise keyboard_interrupt,
     {| trace :=
          [Printed "[2] beta: HOME";
           Called (NewPrinter Fleet.beta) None;
           Called (StartSession 1) None;
           Called (Sleep (PyFloat "2.0")) None;
           Called (Publish 1 "device/S2/request"
                     (wire "{'print': {'command': 'home', 'sequence_id': '1'}}"))
                  (Some keyboard_interrupt);
           Called (Quit 1) None];
        var_bp := Some 1 |}).
Proof. vm_compute. reflexivity. Qed.

(** ** The steps of a run in which nothing fails *)

Section NothingFails.

Variable world : oracle.
Hypothesis Hreturn : all_return world.

Lemma home_iteration_steps args entry st :
  arg_dry_run args = false ->
  exists segment st' r,
    home_iteration world args entry st = (r, st')
    /\ trace st' = (trace st ++ segment)%list
    /\ ends_well r
    /\ (r = Ret tt /\ segment = home_steps args (trace st) entry).
Proof.
  intros Hdry. run_script. rewrite Hdry. rewrite !Hreturn. cbn [trace var_bp].
  rewrite !Hreturn. unfold home_steps.
  eexists _, _, _. split; [reflexivity|].
  split; [cbn [trace]; rewrite <- ?app_assoc; cbn [app]; reflexivity|].
  split; [exact I|]. split; [reflexivity|].
  rewrite !length_app. reflexivity.
Qed.

Lemma calibrate_iteration_steps args option entry st :
  arg_dry_run args = false ->
  exists segment st' r,
    calibrate_iteration world args option entry st = (r, st')
    /\ trace st' = (trace st ++ segment)%list
    /\ ends_well r
    /\ (r = Ret tt /\ segment = calibrate_steps args option (trace st) entry).
Proof.
  intros Hdry. run_script. rewrite Hdry. unfold calibrate_steps.
  destruct (arg_home_only args); cbv beta iota zeta delta [negb];
    rewrite !Hreturn; cbn [trace var_bp]; rewrite !Hreturn;
    (eexists _, _, _; split; [reflexivity|];
     split; [cbn [trace]; rewrite <- ?app_assoc; cbn [app]; reflexivity|];
     split; [exact I|]; split; [reflexivity|];
     rewrite !length_app; reflexivity).
Qed.

Lemma for_each_returns {A} (body : A -> M unit)
    (Q : list event -> A -> list event -> Prop) items :
  (forall x st, exists segment st' r,
      body x st = (r, st')
      /\ trace st' = (trace st ++ segment)%list
      /\ ends_well r /\ (r = Ret tt /\ Q (trace st) x segment)) ->
  forall st, exists segments st',
    for_each body items st = (Ret tt, st')
    /\ trace st' = (trace st ++ concat segments)%list
    /\ each_in_turn Q (trace st) items segments
    /\ length segments = length items.
Proof.
  intros Hbody. induction items as [|x items IH]; intros st.
  - exists [], st. simpl. by rewrite app_nil_r.
  - destruct (Hbody x st) as (segment & st1 & r1 & Hrun & Htrace & _ & -> & HQ).
    destruct (IH st1) as (segments & st2 & Hrest & Htrace2 & Hsegs & Hlen).
    exists (segment :: segments), st2. simpl. unfold bind. rewrite Hrun, Hrest.
    split; [done|]. split; [by rewrite Htrace2, Htrace, app_assoc|].
    split; [split; [done | by rewrite <- Htrace]|]. by rewrite Hlen.
Qed.

(** X8: when every call returns, a real run takes every target through
    the same steps in the same order and exits with status 0.  For home:
    progress line, construct the printer object, [start_session], sleep
    [connect_wait], publish the home document on [device/<serial>/request],
    sleep [post_wait], the OK line, [quit].  For calibrate, unless
    [--home-only]: after the home document, sleep [calibration_delay], the
    CALIBRATION line, publish the calibration document; then as for
    home. *)
Theorem steps_when_nothing_fails
    (args : Namespace) (printers : list PrinterEntry)
    (requested : list Z) (targets : list PrinterEntry) (st : state) :
  let option := build_calibration_option (arg_bed_leveling args) (arg_vibration args)
                                         (arg_motor_noise args) in
  arg_dry_run args = false ->
  parse_printer_ids (arg_printers args) = Ret requested ->
  select_printers printers requested = Ret targets ->
  (exists segments st',
      cmd_home world args printers st = (Ret 0%Z, st')
      /\ trace st' = (trace st ++ concat segments)%list
      /\ each_in_turn (fun before entry segment => segment = home_steps args before entry)
           (trace st) targets segments
      /\ length segments = length targets)
  /\ (arg_home_only args = true \/ option <> 0%Z ->
      exists segments st',
        cmd_calibrate world args printers st = (Ret 0%Z, st')
        /\ trace st' = (trace st ++ concat segments)%list
        /\ each_in_turn (fun before entry segment =>
                           segment = calibrate_steps args option before entry)
             (trace st) targets segments
        /\ length segments = length targets).
Proof.
  intros option Hdry Hparse Hselect. subst option. split.
  - rewrite (cmd_home_selected _ _ _ _ _ _ Hparse Hselect).
    destruct (for_each_returns (home_iteration world args)
                (fun before entry segment => segment = home_steps args before entry)
                targets
                (fun entry st1 => home_iteration_steps args entry st1 Hdry) st)
      as (segments & st' & -> & Htrace & Hsegs & Hlen).
    by exists segments, st'.
  - intros Hrun.
    rewrite (cmd_calibrate_selected _ _ _ _ _ _ Hparse Hselect). cbv zeta.
    pass_guard Hrun.
    set (option := build_calibration_option _ _ _) in *.
    destruct (for_each_returns (calibrate_iteration world args option)
                (fun before entry segment =>
                   segment = calibrate_steps args option before entry)
                targets
                (fun entry st1 => calibrate_iteration_steps args option entry st1 Hdry) st)
      as (segments & st' & -> & Htrace & Hsegs & Hlen).
    by exists segments, st'.
Qed.

End NothingFails.

(** [calibrate --printers 1 --bed-leveling] with every call returning. *)
Lemma steps_when_nothing_fails_witness :
  exists segments st',
    cmd_calibrate Fleet.all_well
      (Fleet.with_bed_leveling (Fleet.command "calibrate" "1")) Fleet.roster initial
    = (Ret 0%Z, st')
    /\ trace st' = concat segments
    /\ each_in_turn (fun before entry segment =>
                       segment
                       = calibrate_steps
                           (Fleet.with_bed_leveling (Fleet.command "calibrate" "1"))
                           2 before entry)
         [] [Fleet.alpha] segments
    /\ length segments = 1.
Proof.
  exact (proj2 (steps_when_nothing_fails Fleet.all_well (fun _ _ => eq_refl)
                  (Fleet.with_bed_leveling (Fleet.command "calibrate" "1"))
                  Fleet.roster [1%Z] [Fleet.alpha] initial eq_refl eq_refl eq_refl)
           (or_intror (Z.neq_sym 0 2 (Z.lt_neq 0 2 eq_refl)))).
Defined.

(** ** The commands that touch no printer *)

Section NoPrinter.

Lemma list_lines_prints printers st :
  list_lines printers st
  = (Ret tt, {| trace := trace st ++ map (fun p => Printed (list_line p)) printers;
                var_bp := var_bp st |}).
Proof.
  revert st. induction printers as [|p printers IH]; intros st.
  - simpl. rewrite app_nil_r. by destruct st.
  - cbn [list_lines map]. unfold bind, print, log. rewrite IH. cbn [trace var_bp].
    by rewrite <- app_assoc.
Qed.

Lemma cmd_list_prints printers st :
  cmd_list printers st
  = (Ret (match printers with [] => 1 | _ => 0 end)%Z,
     {| trace := trace st
                 ++ match printers with
                    | [] => [Printed "No printers in config."]
                    | _ => Printed "Configured printers:"
                           :: map (fun p => Printed (list_line p)) printers
                    end;
        var_bp := var_bp st |}).
Proof.
  destruct printers as [|p printers]; [done|].
  unfold cmd_list, bind, print, log, ret. rewrite list_lines_prints. cbn [trace var_bp].
  by rewrite <- app_assoc.
Qed.

(** X9: [list] prints "Configured printers:" and then one line
    "  <id>: <name> (<host>, serial: <serial>)" per roster entry, in roster
    order, with status 0; on an empty roster it prints "No printers in
    config." with status 1.  Nothing is called, with or without
    [--dry-run]. *)
Theorem list_command
    (world : oracle) (load_config : string -> result (list PrinterEntry))
    (args : Namespace) (printers : list PrinterEntry) (st : state) :
  load_config (arg_config args) = Ret printers ->
  arg_cmd args = "list" ->
  main world load_config args st
  = (Ret (match printers with [] => 1 | _ => 0 end)%Z,
     {| trace := trace st
                 ++ match printers with
                    | [] => [Printed "No printers in config."]
                    | _ => Printed "Configured printers:"
                           :: map (fun p =>
                                     Printed ("  " ++ Py.repr_int (id p) ++ ": " ++ name p
                                                   ++ " (" ++ host p ++ ", serial: "
                                                   ++ serial p ++ ")"))
                                  printers
                    end;
        var_bp := var_bp st |}).
Proof.
  intros Hload Hcmd. unfold main, bind at 1, try_except at 1, bind at 1, lift, ret.
  rewrite Hload, Hcmd. cbn [String.eqb Ascii.eqb Bool.eqb]. unfold try_except.
  by rewrite cmd_list_prints.
Qed.

Lemma list_command_witness :
  main Fleet.all_well Fleet.config (Fleet.command "list" "") initial
  = (Ret 0%Z,
     {| trace := [Printed "Configured printers:";
                  Printed "  1: alpha (10.0.0.1, serial: S1)";
                  Printed "  2: beta (10.0.0.2, serial: S2)";
                  Printed "  5: gamma (10.0.0.5, serial: S5)"];
        var_bp := None |}).
Proof.
  exact (list_command Fleet.all_well Fleet.config (Fleet.command "list" "")
           Fleet.roster initial eq_refl eq_refl).
Defined.

Lemma home_iteration_dry world args entry st :
  arg_dry_run args = true ->
  home_iteration world args entry st
  = (Ret tt, {| trace := trace st ++ [Printed (progress_line entry);
                                      Printed (Json.dumps home_payload)];
                var_bp := var_bp st |}).
Proof.
  intros Hdry. run_script. rewrite Hdry. cbn [trace var_bp].
  by rewrite <- app_assoc.
Qed.

Lemma calibrate_iteration_dry world args option entry st :
  arg_dry_run args = true ->
  calibrate_iteration world args option entry st
  = (Ret tt,
     {| trace := trace st
                 ++ Printed (progress_line entry) :: Printed (Json.dumps home_payload)
                    :: (if arg_home_only args then []
                        else [Printed (wait_line (arg_calibration_delay args));
                              Printed (Json.dumps (cal_payload option))]);
        var_bp := var_bp st |}).
Proof.
  intros Hdry. run_script. rewrite Hdry.
  destruct (arg_home_only args); cbn [negb trace var_bp];
    rewrite <- ?app_assoc; reflexivity.
Qed.

(** X10: dry-run home on ids that resolve prints, for each target in the
    order of the request, the progress line and the home document, and
    exits with status 0; nothing is called and no printer object is
    made. *)
Theorem home_dry_run
    (world : oracle) (load_config : string -> result (list PrinterEntry))
    (args : Namespace) (printers : list PrinterEntry)
    (requested : list Z) (targets : list PrinterEntry) (st : state) :
  load_config (arg_config args) = Ret printers ->
  arg_cmd args = "home" ->
  arg_dry_run args = true ->
  parse_printer_ids (arg_printers args) = Ret requested ->
  select_printers printers requested = Ret targets ->
  main world load_config args st
  = (Ret 0%Z,
     {| trace :=
          trace st
          ++ concat
               (map (fun entry =>
                       [Printed ("[" ++ Py.repr_int (id entry) ++ "] " ++ name entry
                                     ++ ": HOME");
                        Printed (wire "{'print': {'command': 'home', 'sequence_id': '1'}}")])
                    targets);
        var_bp := var_bp st |}).
Proof.
  intros Hload Hcmd Hdry Hparse Hselect.
  rewrite (main_home _ _ _ _ _ Hload Hcmd). unfold try_except.
  rewrite (cmd_home_selected _ _ _ _ _ _ Hparse Hselect).
  erewrite for_each_prints; [reflexivity|].
  intros entry st1. by rewrite (home_iteration_dry _ _ _ _ Hdry), home_document.
Qed.

(** Dry-run [home --printers 1,2]: two home documents, nothing called. *)
Lemma home_dry_run_witness :
  main Fleet.first_unreachable Fleet.config
    (Fleet.with_dry_run (Fleet.command "home" "1,2")) initial
  = (Ret 0%Z,
     {| trace :=
          [Printed "[1] alpha: HOME";
           Printed (wire "{'print': {'command': 'home', 'sequence_id': '1'}}");
           Printed "[2] beta: HOME";
           Printed (wire "{'print': {'command': 'home', 'sequence_id': '1'}}")];
        var_bp := None |}).
Proof.
  exact (home_dry_run Fleet.first_unreachable Fleet.config
           (Fleet.with_dry_run (Fleet.command "home" "1,2")) Fleet.roster
           [1; 2]%Z [Fleet.alpha; Fleet.beta] initial
           eq_refl eq_refl eq_refl eq_refl eq_refl).
Defined.

Lemma for_each_ext {A} (body body' : A -> M unit) items st :
  (forall x st1, body x st1 = body' x st1) ->
  for_each body items st = for_each body' items st.
Proof.
  intros Hext. revert st. induction items as [|x items IH]; intros st; [done|].
  simpl. unfold bind. rewrite Hext. destruct (body' x st) as [[[]|e] st1]; [apply IH | done].
Qed.

Lemma bind_cong {A B} (m : M A) (k k' : A -> M B) st :
  (forall a st1, k a st1 = k' a st1) -> bind m k st = bind m k' st.
Proof. intros Hk. unfold bind. destruct (m st) as [[a|e] st1]; auto. Qed.

Lemma try_except_cong {A} (body body' : M A) handler st :
  body st = body' st -> try_except body handler st = try_except body' handler st.
Proof. intros Hb. unfold try_except. by rewrite Hb. Qed.

(** X11: a dry run, and [list], do not depend on the world: whatever the
    printers and the network would do, the exit status and everything
    printed are the same, for every command line, also one whose ids do not
    parse or resolve. *)
Theorem dry_run_ignores_the_world
    (world world' : oracle) (load_config : string -> result (list PrinterEntry))
    (args : Namespace) (st : state) :
  arg_dry_run args = true \/ arg_cmd args = "list" ->
  main world load_config args st = main world' load_config args st.
Proof.
  intros Hdry. unfold main. apply bind_cong. intros [printers|status] st1; [|done].
  apply try_except_cong.
  destruct (String.eqb (arg_cmd args) "list") eqn:Hlist; [done|].
  destruct Hdry as [Hdry|Hcmd]; [|by rewrite Hcmd in Hlist].
  destruct (String.eqb (arg_cmd args) "home");
    [|destruct (String.eqb (arg_cmd args) "calibrate"); [|done]].
  - unfold cmd_home, bind, lift.
    destruct (parse_printer_ids _) as [requested|]; [|done].
    destruct (select_printers _ _) as [targets|]; [|done].
    rewrite (for_each_ext (home_iteration world args) (home_iteration world' args));
      [done|].
    intros entry st2. by rewrite !(home_iteration_dry _ _ _ _ Hdry).
  - unfold cmd_calibrate, bind, lift.
    destruct (parse_printer_ids _) as [requested|]; [|done].
    destruct (select_printers _ _) as [targets|]; [|done]. cbv zeta.
    destruct (negb _ && _); [done|].
    rewrite (for_each_ext (calibrate_iteration world args _)
               (calibrate_iteration world' args
                  (build_calibration_option (arg_bed_leveling args) (arg_vibration args)
                     (arg_motor_noise args))));
      [done|].
    intros entry st2. by rewrite !(calibrate_iteration_dry _ _ _ _ _ Hdry).
Qed.

Lemma dry_run_ignores_the_world_witness :
  main Fleet.first_unreachable Fleet.config
    (Fleet.with_dry_run (Fleet.command "home" "2,5")) initial
  = main Fleet.all_well Fleet.config
      (Fleet.with_dry_run (Fleet.command "home" "2,5")) initial.
Proof.
  exact (dry_run_ignores_the_world Fleet.first_unreachable Fleet.all_well Fleet.config
           (Fleet.with_dry_run (Fleet.command "home" "2,5")) initial (or_introl eq_refl)).
Defined.

End NoPrinter.

(** ** The exit status *)

Section ExitStatus.

Variable world : oracle.
Variable load_config : string -> result (list PrinterEntry).

Lemma cmd_home_status args printers st status st' :
  cmd_home world args printers st = (Ret status, st') -> status = 0%Z.
Proof.
  unfold cmd_home, bind, lift, ret.
  destruct (parse_printer_ids _); [|done]. destruct (select_printers _ _); [|done].
  destruct (for_each _ _ _) as [[[]|e] st1]; [|done]. by intros [= <- _].
Qed.

Lemma cmd_calibrate_status args printers st status st' :
  cmd_calibrate world args printers st = (Ret status, st') ->
  status = 0%Z \/ status = 1%Z.
Proof.
  unfold cmd_calibrate, bind, lift, ret, print, log.
  destruct (parse_printer_ids _); [|done]. destruct (select_printers _ _); [|done].
  cbv zeta. destruct (negb _ && _).
  - intros [= <- _]. by right.
  - destruct (for_each _ _ _) as [[[]|e] st1]; [|done]. intros [= <- _]. by left.
Qed.

(** X12: [main] ends in one of three ways only: exit status 0, exit status
    1, or killed by something that is not an [Exception] (an interrupt).
    No [Exception] leaves [main], for any command line, roster file and
    behaviour of the printers. *)
Theorem main_exit_status (args : Namespace) (st : state) :
  match fst (main world load_config args st) with
  | Ret status => status = 0%Z \/ status = 1%Z
  | Raise e => is_Exception e = false
  end.
Proof.
  assert (Hcaught : forall (body : M Z) st1,
             (forall status st2, body st1 = (Ret status, st2) ->
                                 status = 0%Z \/ status = 1%Z) ->
             match fst (try_except body report_error st1) with
             | Ret status => status = 0%Z \/ status = 1%Z
             | Raise e => is_Exception e = false
             end).
  { intros body st1 Hbody. unfold try_except.
    destruct (body st1) as [[status|e] st2] eqn:Hrun; simpl.
    - by eapply Hbody.
    - destruct (is_Exception e) eqn:He; simpl; [by right | done]. }
  unfold main, bind at 1, try_except at 1, bind at 1, lift, ret.
  destruct (load_config (arg_config args)) as [printers|e].
  - apply Hcaught. intros status st2.
    destruct (String.eqb (arg_cmd args) "list").
    { rewrite cmd_list_prints. intros [= <- _]. destruct printers; auto. }
    destruct (String.eqb (arg_cmd args) "home").
    { intros H. left. by eapply cmd_home_status. }
    destruct (String.eqb (arg_cmd args) "calibrate").
    { by apply cmd_calibrate_status. }
    unfold bind, print, log, ret. intros [= <- _]. by right.
  - destruct (is_Exception e) eqn:He; simpl; [by right | done].
Qed.

(** X13: the failures before the first target each print one line and
    give status 1, with nothing else printed and nothing called: a roster
    that cannot be loaded gives "Config error: <description>", whatever the
    command; a [--printers] value that does not parse gives
    "Error: <description>" for home and for calibrate. *)
Theorem fatal_errors_before_any_target (args : Namespace) (st : state) :
  (forall e,
      load_config (arg_config args) = Raise e -> is_Exception e = true ->
      main world load_config args st
      = (Ret 1%Z, {| trace := trace st ++ [Printed ("Config error: " ++ exn_str e)];
                     var_bp := var_bp st |}))
  /\ (forall printers e,
         load_config (arg_config args) = Ret printers ->
         arg_cmd args = "home" \/ arg_cmd args = "calibrate" ->
         parse_printer_ids (arg_printers args) = Raise e ->
         main world load_config args st
         = (Ret 1%Z, {| trace := trace st ++ [Printed ("Error: " ++ exn_str e)];
                        var_bp := var_bp st |})).
Proof.
  split.
  - intros e Hload He.
    unfold main, bind at 1, try_except at 1, bind at 1, lift, ret.
    by rewrite Hload, He.
  - intros printers e Hload Hcmd Hparse.
    destruct (ints_raise_ValueError _ _ Hparse) as [msg ->].
    destruct Hcmd as [Hcmd|Hcmd].
    + rewrite (main_home _ _ _ _ _ Hload Hcmd). unfold try_except, cmd_home, bind, lift.
      by rewrite Hparse.
    + rewrite (main_calibrate _ _ _ _ _ Hload Hcmd).
      unfold try_except, cmd_calibrate, bind, lift. by rewrite Hparse.
Qed.

(** X14: a [--printers] value with no id in it (empty, or only commas and
    white space) is no error for home: the request is empty, nothing is
    printed or called, and the status is 0. *)
Theorem home_without_ids (args : Namespace) (printers : list PrinterEntry)
    (spaces : list string) (st : state) :
  load_config (arg_config args) = Ret printers ->
  arg_cmd args = "home" ->
  forallb IdList.all_space spaces = true ->
  arg_printers args = Py.join "," spaces ->
  main world load_config args st = (Ret 0%Z, st).
Proof.
  intros Hload Hcmd Hblank Hids.
  rewrite (main_home _ _ _ _ _ Hload Hcmd). unfold try_except.
  rewrite (cmd_home_selected world args printers [] [] st); [done| |done].
  rewrite Hids. by apply parse_blank.
Qed.

End ExitStatus.

(** [home --printers " , ,"]: status 0 and an empty trace. *)
Lemma home_without_ids_witness :
  main Fleet.first_unreachable Fleet.config (Fleet.command "home" " , ,") initial
  = (Ret 0%Z, initial).
Proof.
  exact (home_without_ids Fleet.first_unreachable Fleet.config
           (Fleet.command "home" " , ,") Fleet.roster [" "; " "; ""] initial
           eq_refl eq_refl eq_refl eq_refl).
Defined.

Lemma fatal_errors_before_any_target_witness :
  main Fleet.all_well Fleet.config (Fleet.command "home" "1,x") initial
  = (Ret 1%Z,
     {| trace := [Printed "Error: invalid literal for int() with base 10: 'x'"];
        var_bp := None |}).
Proof.
  exact (proj2 (fatal_errors_before_any_target Fleet.all_well Fleet.config
                  (Fleet.command "home" "1,x") initial)
           Fleet.roster _ eq_refl (or_introl eq_refl) eq_refl).
Defined.

(** ** Sessions that are started and not released *)

Section Abandoned.

Variable world : oracle.




End Abandoned.



(** ** The documents on the wire *)

Section Documents.

Lemma length_append (s t : string) :
  String.length (s ++ t) = String.length s + String.length t.
Proof. induction s as [|c s IH]; simpl; [done | by rewrite IH]. Qed.

Lemma append_cancel_r (s s' t : string) : s ++ t = s' ++ t -> s = s'.
Proof.
  revert s'. induction s as [|c s IH]; intros [|c' s'] H; simpl in H.
  - done.
  - apply (f_equal String.length) in H. simpl in H. rewrite length_append in H. lia.
  - apply (f_equal String.length) in H. simpl in H. rewrite length_append in H. lia.
  - injection H as -> H. f_equal. by apply IH.
Qed.

(** X16: the calibration document is, for every option, the text
    {"print": {"command": "calibration", "sequence_id": "2", "option": N}}
    with N the option in decimal, so two options never give the same
    document; it differs from the home document, whose sequence id is
    "1". *)
Theorem calibration_document_on_the_wire (option option' : Z) :
  Json.dumps (cal_payload option)
  = wire "{'print': {'command': 'calibration', 'sequence_id': '2', 'option': "
    ++ Py.repr_int option ++ "}}"
  /\ (Json.dumps (cal_payload option) = Json.dumps (cal_payload option')
      -> option = option')
  /\ Json.dumps (cal_payload option) <> Json.dumps home_payload.
Proof.
  split; [apply calibration_document|]. split.
  - rewrite !calibration_document. intros H.
    apply (inj (String.app _)) in H. apply append_cancel_r in H.
    unfold Py.repr_int in H. by apply (inj pretty) in H.
  - rewrite calibration_document, home_document. intros H. discriminate H.
Qed.

End Documents.

(** ** The exit status of home and calibrate *)

Section HomeAndCalibrate.

Variable world : oracle.
Variable load_config : string -> result (list PrinterEntry).
Hypothesis Herr : errors_only world.

Lemma subscript_all_raises by_id pids e :
  subscript_all by_id pids = Raise e -> is_Exception e = true.
Proof.
  induction pids as [|pid pids IH]; [done|]. simpl. unfold subscript.
  destruct (by_id !! pid); [|by intros [= <-]].
  destruct (subscript_all by_id pids); [done|]. intros [= <-]. by apply IH.
Qed.

Lemma select_raises printers requested e :
  select_printers printers requested = Raise e -> is_Exception e = true.
Proof.
  unfold select_printers. destruct (List.filter _ requested).
  - apply subscript_all_raises.
  - by intros [= <-].
Qed.

Lemma option_zero b v m :
  (build_calibration_option b v m <=? 0)%Z = true -> build_calibration_option b v m = 0%Z.
Proof. destruct b, v, m; vm_compute; congruence. Qed.

Lemma caught_by_main (body : M Z) e st st1 :
  body st = (Raise e, st1) -> is_Exception e = true ->
  try_except body report_error st
  = (Ret 1%Z, {| trace := trace st1 ++ [Printed ("Error: " ++ exn_str e)];
                 var_bp := var_bp st1 |}).
Proof. intros Hbody He. unfold try_except. by rewrite Hbody, He. Qed.

(** One target of either loop, dry or real: it returns, and in a real run
    its events are an isolated segment. *)
Lemma home_iteration_returns args entry st :
  exists segment st',
    home_iteration world args entry st = (Ret tt, st')
    /\ trace st' = (trace st ++ segment)%list
    /\ (arg_dry_run args = false -> isolated entry segment).
Proof.
  destruct (arg_dry_run args) eqn:Hdry.
  - run_script. rewrite Hdry. eexists _, _. split; [reflexivity|].
    split; [|done]. cbn [trace]. rewrite <- ?app_assoc. reflexivity.
  - destruct (home_iteration_isolated world Herr args entry st Hdry)
      as (segment & st' & H1 & H2 & H3). by exists segment, st'.
Qed.

Lemma calibrate_iteration_returns args option entry st :
  exists segment st',
    calibrate_iteration world args option entry st = (Ret tt, st')
    /\ trace st' = (trace st ++ segment)%list
    /\ (arg_dry_run args = false -> isolated entry segment).
Proof.
  destruct (arg_dry_run args) eqn:Hdry.
  - run_script. rewrite Hdry.
    destruct (arg_home_only args); cbn [negb trace var_bp];
      (eexists _, _; split; [reflexivity|]; split; [|done];
       cbn [trace]; rewrite <- ?app_assoc; reflexivity).
  - destruct (calibrate_iteration_isolated world Herr args option entry st Hdry)
      as (segment & st' & H1 & H2 & H3). by exists segment, st'.
Qed.

Lemma Forall2_under {A B} (C : Prop) (P : A -> B -> Prop) l k :
  Forall2 (fun x y => C -> P x y) l k -> C -> Forall2 P l k.
Proof. intros H HC. induction H; constructor; auto. Qed.

(** C1, amended: with the roster loaded, and in a world where what is
    raised is an error, a home or calibrate run exits with status 0 or 1,
    and which of the two is decided before the first target.  The status is
    0 exactly when the requested ids parse and all resolve and, for
    calibrate, a sub-test is chosen or [--home-only] is set; it is 1 when
    the ids do not parse, when one of them is unknown, or when there is
    nothing to calibrate.  What the targets raise during execution does not
    enter: in a real run with status 0 every target leaves an isolated
    segment, whose status line is OK or FAILED. *)
Theorem C1_exit_status (args : Namespace) (printers : list PrinterEntry) (st : state) :
  let option := build_calibration_option (arg_bed_leveling args) (arg_vibration args)
                                         (arg_motor_noise args) in
  load_config (arg_config args) = Ret printers ->
  arg_cmd args = "home" \/ arg_cmd args = "calibrate" ->
  exists status st',
    main world load_config args st = (Ret status, st')
    /\ (status = 0%Z
        /\ (exists requested targets,
               parse_printer_ids (arg_printers args) = Ret requested
               /\ select_printers printers requested = Ret targets
               /\ (arg_cmd args = "calibrate" ->
                   arg_home_only args = true \/ option <> 0%Z)
               /\ (arg_dry_run args = false ->
                   exists segments,
                     trace st' = (trace st ++ concat segments)%list
                     /\ Forall2 isolated targets segments))
        \/ status = 1%Z
           /\ ((exists e, parse_printer_ids (arg_printers args) = Raise e)
               \/ (exists requested e,
                      parse_printer_ids (arg_printers args) = Ret requested
                      /\ select_printers printers requested = Raise e)
               \/ (arg_cmd args = "calibrate"
                   /\ arg_home_only args = false /\ option = 0%Z))).
Proof.
  intros option Hload Hcmd.
  destruct (parse_printer_ids (arg_printers args)) as [requested|e] eqn:Hparse.
  2: { (* the ids do not parse *)
    destruct (ints_raise_ValueError _ _ Hparse) as [msg ->].
    exists 1%Z. eexists. split; [|right; split; [done|left; by eexists]].
    destruct Hcmd as [Hc|Hc].
    - rewrite (main_home _ _ _ _ _ Hload Hc).
      eapply caught_by_main; [unfold cmd_home, bind, lift; by rewrite Hparse | done].
    - rewrite (main_calibrate _ _ _ _ _ Hload Hc).
      eapply caught_by_main; [unfold cmd_calibrate, bind, lift; by rewrite Hparse | done]. }
  destruct (select_printers printers requested) as [targets|e] eqn:Hselect.
  2: { (* an id is unknown *)
    pose proof (select_raises _ _ _ Hselect) as He.
    exists 1%Z. eexists.
    split; [|right; split; [done|right; left; by exists requested, e]].
    destruct Hcmd as [Hc|Hc].
    - rewrite (main_home _ _ _ _ _ Hload Hc).
      eapply caught_by_main; [unfold cmd_home, bind, lift; by rewrite Hparse, Hselect | done].
    - rewrite (main_calibrate _ _ _ _ _ Hload Hc).
      eapply caught_by_main;
        [unfold cmd_calibrate, bind, lift; by rewrite Hparse, Hselect | done]. }
  destruct Hcmd as [Hc|Hc].
  - (* home *)
    rewrite (main_home _ _ _ _ _ Hload Hc). unfold try_except.
    rewrite (cmd_home_selected _ _ _ _ _ _ Hparse Hselect).
    destruct (for_each_segments (home_iteration world args)
                (fun entry segment => arg_dry_run args = false -> isolated entry segment)
                targets (home_iteration_returns args) st)
      as (segments & st' & -> & Htrace & Hsegs).
    exists 0%Z, st'. split; [done|]. left. split; [done|].
    exists requested, targets. split; [done|]. split; [done|]. split.
    + intros Hcal. rewrite Hc in Hcal. discriminate Hcal.
    + intros Hdry. exists segments. split; [done|]. by eapply Forall2_under.
  - (* calibrate *)
    rewrite (main_calibrate _ _ _ _ _ Hload Hc). unfold try_except.
    rewrite (cmd_calibrate_selected _ _ _ _ _ _ Hparse Hselect). cbv zeta.
    fold option.
    destruct (negb (arg_home_only args) && (option <=? 0)%Z) eqn:Hguard.
    + (* nothing to calibrate *)
      apply andb_true_iff in Hguard as [Honly Hzero].
      apply negb_true_iff in Honly. apply option_zero in Hzero.
      exists 1%Z. eexists. split; [done|]. right. split; [done|]. right. right. done.
    + destruct (for_each_segments (calibrate_iteration world args option)
                  (fun entry segment => arg_dry_run args = false -> isolated entry segment)
                  targets (calibrate_iteration_returns args option) st)
        as (segments & st' & -> & Htrace & Hsegs).
      exists 0%Z, st'. split; [done|]. left. split; [done|].
      exists requested, targets. split; [done|]. split; [done|]. split.
      * intros _. destruct (arg_home_only args); [by left|]. right.
        intros Hzero. rewrite Hzero in Hguard. discriminate Hguard.
      * intros Hdry. exists segments. split; [done|]. by eapply Forall2_under.
Qed.

End HomeAndCalibrate.

(** [home --printers 2] when printer 2 cannot start its session: the ids
    parse and resolve, so the status is 0, and the one target leaves an
    isolated segment, whose status line is FAILED. *)
Lemma C1_exit_status_witness :
  exists status st',
    main Fleet.first_unreachable Fleet.config (Fleet.command "home" "2") initial
    = (Ret status, st')
    /\ (status = 0%Z
        /\ (exists requested targets,
               parse_printer_ids "2" = Ret requested
               /\ select_printers Fleet.roster requested = Ret targets
               /\ ("home" = "calibrate" -> false = true \/ 0%Z <> 0%Z)
               /\ (false = false ->
                   exists segments,
                     trace st' = concat segments
                     /\ Forall2 isolated targets segments))
        \/ status = 1%Z
           /\ ((exists e, parse_printer_ids "2" = Raise e)
               \/ (exists requested e,
                      parse_printer_ids "2" = Ret requested
                      /\ select_printers Fleet.roster requested = Raise e)
               \/ ("home" = "calibrate" /\ false = false /\ 0%Z = 0%Z))).
Proof.
  exact (C1_exit_status Fleet.first_unreachable Fleet.config
           first_unreachable_errors_only (Fleet.command "home" "2") Fleet.roster initial
           eq_refl (or_introl eq_refl)).
Defined.
